(** * The Streamlit front end of the RAG application: file sink, event
      dispatch and run polling ([streamlit_app.py]).

    The page script is embedded as a state-and-exception monad over an
    explicit [world] (wall clock, HTTP request log, submitted events, file
    system) and an [environment] that fixes what the outside answers (the
    Inngest dev server, the Inngest client, the process environment).

    Conventions.
    - JSON-decoded Python objects are [pyval]; a [dict] is a [gmap] keyed by
      strings, so equality of dictionaries is extensional as in Python.
    - Time is in seconds, as exact rationals: [time.time()] readings and the
      [float] arguments [timeout_s], [poll_interval_s] are read as the
      rationals they denote.
    - A character of a [string] stands for a code point below 256.
    - [while True] is unrolled by a fuel argument; [OutOfFuel] is the
      model's only way of not answering. *)

From Stdlib Require Import ZArith QArith String Ascii List Lia Lqa.
From Stdlib Require Floats.SpecFloat.
From stdpp Require Import base option list gmap strings pretty.

Set Warnings "-register-all".
Local Open Scope string_scope.

(** ** Python values *)

Inductive pyval :=
| PNone
| PBool (b : bool)
| PInt (z : Z)
| PFloat (f : SpecFloat.spec_float)
| PStr (s : string)
| PList (l : list pyval)
| PDict (d : gmap string pyval).

(** [bool(v)]: the truth value Python gives an object in [if v] and
    [v or w]. *)
Definition truthy (v : pyval) : bool :=
  match v with
  | PNone => false
  | PBool b => b
  | PInt z => negb (z =? 0)%Z
  | PFloat (SpecFloat.S754_zero _) => false
  | PFloat _ => true
  | PStr s => negb (s =? "")%string
  | PList l => match l with [] => false | _ :: _ => true end
  | PDict d => negb (bool_decide (d = ∅))
  end.

(** [a or b] *)
Definition py_or (a b : pyval) : pyval := if truthy a then a else b.

(** [v in (s1, ..., sn)] for a tuple of string literals: only a [str] can
    compare equal to one of them. *)
Definition py_in (v : pyval) (labels : list string) : bool :=
  match v with
  | PStr s => existsb (String.eqb s) labels
  | _ => false
  end.

(** [str(v)] as interpolated by an f-string, on the values whose rendering
    is modelled; [None] on floats and containers. *)
Definition py_str (v : pyval) : option string :=
  match v with
  | PNone => Some "None"
  | PBool true => Some "True"
  | PBool false => Some "False"
  | PInt z => Some (pretty z)
  | PStr s => Some s
  | _ => None
  end.

(** ** Events, HTTP responses, file-system nodes *)

(** [inngest.Event(name=..., data=...)] *)
Record event := Event { event_name : string; event_data : gmap string pyval }.

(** What [requests.get] hands back: the status line and the body as
    [resp.json()] would decode it ([None]: the body is not JSON). *)
Record response := Response { status_code : Z; json_body : option pyval }.

Inductive node :=
| Dir
| File (content : list Byte.byte).

(** ** Exceptions and outcomes *)

Inductive exn :=
| RequestException
    (* requests.get raised instead of answering: any of the library's
       RequestException classes (ConnectionError, Timeout, MissingSchema,
       TooManyRedirects, ...), which the model does not tell apart *)
| HTTPError (code : Z)             (* resp.raise_for_status() *)
| JSONDecodeError                  (* resp.json() *)
| AttributeError                   (* .get on an object that has none *)
| KeyError
| IndexError
| TypeError
| ValueError
| OSError (errno : Z)              (* an OSError that has no class of its own *)
| RuntimeError (status : pyval)    (* RuntimeError(f"Function run {status}") *)
| TimeoutError (last_status : pyval)
    (* TimeoutError(f"Timed out waiting for run output (last status: {last_status})") *)
| SendError (reason : string)      (* whatever client.send raises *)
| FileExistsError
| FileNotFoundError
| NotADirectoryError
| IsADirectoryError.

(** The message an exception of the poller carries, where [py_str] renders
    the interpolated status. *)
Definition exn_message (e : exn) : option string :=
  match e with
  | RuntimeError status =>
      s ← py_str status; Some ("Function run " ++ s)
  | TimeoutError last_status =>
      s ← py_str last_status;
      Some ("Timed out waiting for run output (last status: " ++ s ++ ")")
  | _ => None
  end.

Inductive outcome (A : Type) :=
| Return (a : A)
| Raise (e : exn)
| OutOfFuel.
Arguments Return {A} a.
Arguments Raise {A} e.
Arguments OutOfFuel {A}.

(** ** The world and the environment *)

Record world := World {
  now : Q;                          (* wall clock *)
  requests : list string;
      (* the URLs requests.get was called with so far, oldest first *)
  sent : list event;                (* events submitted so far, oldest first *)
  files : gmap (list string) node   (* absolute path (components) -> node *)
}.

Record environment := Environment {
  INNGEST_API_BASE : option string;        (* os.environ *)
  cwd : list string;                       (* working directory, absolute *)
  server : string -> nat -> option response;
      (* what the n-th call of requests.get comes back with, by URL;
         [None]: it raises *)
  latency : nat -> Q;                      (* duration of the n-th call *)
  inngest : nat -> event -> string + list string
      (* reply to the n-th client.send: the ids acknowledged, or the reason
         of the failure *)
}.

Definition set_now (t : Q) (w : world) : world :=
  {| now := t; requests := requests w; sent := sent w; files := files w |}.
Definition log_request (url : string) (w : world) : world :=
  {| now := now w; requests := requests w ++ [url]; sent := sent w; files := files w |}.
Definition log_event (e : event) (w : world) : world :=
  {| now := now w; requests := requests w; sent := sent w ++ [e]; files := files w |}.
Definition set_files (fs : gmap (list string) node) (w : world) : world :=
  {| now := now w; requests := requests w; sent := sent w; files := fs |}.

(** ** The monad *)

Definition M (A : Type) : Type := world -> outcome A * world.

Definition ret {A} (a : A) : M A := fun w => (Return a, w).
Definition raise {A} (e : exn) : M A := fun w => (Raise e, w).
Definition out_of_fuel {A} : M A := fun w => (OutOfFuel, w).
Definition bind {A B} (m : M A) (k : A -> M B) : M B :=
  fun w =>
    match m w with
    | (Return a, w') => k a w'
    | (Raise e, w') => (Raise e, w')
    | (OutOfFuel, w') => (OutOfFuel, w')
    end.

Declare Scope py_scope.
Delimit Scope py_scope with py.
Notation "x <- c1 ;; c2" := (bind c1 (fun x => c2))
  (at level 100, c1 at next level, right associativity) : py_scope.
Notation "c1 ;; c2" := (bind c1 (fun _ => c2))
  (at level 100, right associativity) : py_scope.
Local Open Scope py_scope.

(** ** Builtins used by the script *)

(** [obj.get(key, default)] *)
Definition py_get (obj : pyval) (key : string) (default : pyval) : M pyval :=
  match obj with
  | PDict d => ret (match d !! key with Some v => v | None => default end)
  | _ => raise AttributeError
  end.

(** [obj[0]]. A JSON-decoded [dict] has string keys only, so the integer key
    is never found. *)
Definition py_getitem0 (obj : pyval) : M pyval :=
  match obj with
  | PList (x :: _) => ret x
  | PList [] => raise IndexError
  | PStr (String c _) => ret (PStr (String c EmptyString))
  | PStr EmptyString => raise IndexError
  | PDict _ => raise KeyError
  | _ => raise TypeError
  end.

Definition Qgtb (a b : Q) : bool := negb (Qle_bool a b).

(** [time.time()] *)
Definition time_time : M Q := fun w => (Return (now w), w).

(** [time.sleep(secs)]: a negative interval is refused with [ValueError].
    (CPython also refuses an interval too large for its clock, above some
    9.2e9 s, with [OverflowError]; intervals are taken below that bound.) *)
Definition time_sleep (secs : Q) : M unit :=
  fun w =>
    if Qgtb 0 secs then (Raise ValueError, w)
    else (Return tt, set_now (now w + secs) w).

(** [resp.raise_for_status()]: requests raises for the 4xx and 5xx classes. *)
Definition raise_for_status (resp : response) : M unit :=
  if ((400 <=? status_code resp) && (status_code resp <? 600))%Z
  then raise (HTTPError (status_code resp))
  else ret tt.

(** [resp.json()] *)
Definition resp_json (resp : response) : M pyval :=
  match json_body resp with
  | Some v => ret v
  | None => raise JSONDecodeError
  end.

(** ** Paths ([pathlib.PurePosixPath]) *)

Inductive anchor :=
| Rel      (* no root *)
| Abs      (* root [/] *)
| Abs2.    (* root [//], which POSIX keeps apart *)

Record path := Path { path_anchor : anchor; path_parts : list string }.

Definition slash : ascii := "/"%char.

(** The pieces of a string between its slashes. *)
Fixpoint split_slash (s : string) : list string :=
  match s with
  | EmptyString => [EmptyString]
  | String c s' =>
      if Ascii.eqb c slash then EmptyString :: split_slash s'
      else match split_slash s' with
           | h :: t => String c h :: t
           | [] => [String c EmptyString]
           end
  end.

Definition anchor_of (s : string) : anchor :=
  match s with
  | String c1 (String c2 (String c3 _)) =>
      if Ascii.eqb c1 slash then
        if Ascii.eqb c2 slash then
          if Ascii.eqb c3 slash then Abs else Abs2
        else Abs
      else Rel
  | String c1 (String c2 EmptyString) =>
      if Ascii.eqb c1 slash then
        if Ascii.eqb c2 slash then Abs2 else Abs
      else Rel
  | String c1 EmptyString => if Ascii.eqb c1 slash then Abs else Rel
  | EmptyString => Rel
  end.

Definition keep_part (p : string) : bool :=
  negb (p =? "")%string && negb (p =? ".")%string.

(** [Path(s)]: empty and [.] components are dropped, [..] is kept. *)
Definition path_of_string (s : string) : path :=
  {| path_anchor := anchor_of s;
     path_parts := List.filter keep_part (split_slash s) |}.

(** [p / s] *)
Definition path_join (p : path) (s : string) : path :=
  let q := path_of_string s in
  match path_anchor q with
  | Rel => {| path_anchor := path_anchor p; path_parts := path_parts p ++ path_parts q |}
  | _ => q
  end.

(** [p.name] *)
Definition path_name (p : path) : string := List.last (path_parts p) "".

(** [str(p)] *)
Definition path_str (p : path) : string :=
  match path_anchor p, path_parts p with
  | Rel, [] => "."
  | Rel, ps => String.concat "/" ps
  | Abs, ps => "/" ++ String.concat "/" ps
  | Abs2, ps => "//" ++ String.concat "/" ps
  end.

(** A file name that is a single path component the operating system
    accepts: not empty, not [.] or [..], without a slash or a NUL, and of at
    most [NAME_MAX] bytes ([simple_name], below). *)
Fixpoint has_slash (s : string) : bool :=
  match s with
  | EmptyString => false
  | String c s' => Ascii.eqb c slash || has_slash s'
  end.

(** What the operating system refuses in a path: a NUL character (Python
    raises [ValueError] before any system call), a component of more than
    [NAME_MAX] bytes and a path of [PATH_MAX] bytes or more ([ENAMETOOLONG]).
    Names are encoded in UTF-8: a code point below 128 is one byte, one from
    128 to 255 is two. *)
Fixpoint has_nul (s : string) : bool :=
  match s with
  | EmptyString => false
  | String c s' => (nat_of_ascii c =? 0)%nat || has_nul s'
  end.

Fixpoint utf8_length (s : string) : nat :=
  match s with
  | EmptyString => 0
  | String c s' => ((if (nat_of_ascii c <? 128)%nat then 1 else 2) + utf8_length s')%nat
  end.

Definition NAME_MAX : nat := 255.
Definition PATH_MAX : nat := 4096.
Definition ENAMETOOLONG : Z := 36.

Definition name_too_long (c : string) : bool := (NAME_MAX <? utf8_length c)%nat.

(** The check a path string undergoes before the kernel walks it. *)
Definition path_refused (p : string) : option exn :=
  if has_nul p then Some ValueError
  else if (PATH_MAX <=? utf8_length p)%nat then Some (OSError ENAMETOOLONG)
  else None.

Definition simple_name (s : string) : bool :=
  negb (s =? "")%string && negb (s =? ".")%string && negb (s =? "..")%string
  && negb (has_slash s) && negb (has_nul s) && negb (name_too_long s).

(** One step of a walk through the directory tree. *)
Definition enter (cur : list string) (c : string) : list string :=
  if (c =? "..")%string then removelast cur else cur ++ [c].

(** ** The file system: no symbolic links, no permissions *)

Definition node_at (fs : gmap (list string) node) (p : list string) : option node :=
  match p with
  | [] => Some Dir
  | _ => fs !! p
  end.

(** The directory reached from [cur] by following [parts], as the kernel
    resolves them. *)
Fixpoint walk (fs : gmap (list string) node) (cur parts : list string)
  : exn + list string :=
  match node_at fs cur with
  | None => inl FileNotFoundError
  | Some (File _) => inl NotADirectoryError
  | Some Dir =>
      match parts with
      | [] => inr cur
      | c :: rest =>
          if name_too_long c then inl (OSError ENAMETOOLONG)
          else walk fs (enter cur c) rest
      end
  end.

(** [mkdir(parents=True, exist_ok=True)] below an existing directory
    [cur]. *)
Fixpoint make_dirs (fs : gmap (list string) node) (cur parts : list string)
  : exn + gmap (list string) node :=
  match parts with
  | [] => inr fs
  | c :: rest =>
      let next := enter cur c in
      if name_too_long c then inl (OSError ENAMETOOLONG)
      else match node_at fs next with
      | Some Dir => make_dirs fs next rest
      | Some (File _) =>
          inl (match rest with [] => FileExistsError | _ => NotADirectoryError end)
      | None => make_dirs (<[next := Dir]> fs) next rest
      end
  end.

(** ** Whitespace *)

(** [str.isspace] on the code points below 256. *)
Definition py_isspace (c : ascii) : bool :=
  let n := nat_of_ascii c in
  (((9 <=? n) && (n <=? 13)) || ((28 <=? n) && (n <=? 32))
   || (n =? 133) || (n =? 160))%nat.

Fixpoint py_lstrip (s : string) : string :=
  match s with
  | EmptyString => EmptyString
  | String c s' => if py_isspace c then py_lstrip s' else s
  end.

Fixpoint py_rstrip (s : string) : string :=
  match s with
  | EmptyString => EmptyString
  | String c s' =>
      match py_rstrip s' with
      | EmptyString => if py_isspace c then EmptyString else String c EmptyString
      | t => String c t
      end
  end.

(** [s.strip()] *)
Definition py_strip (s : string) : string := py_rstrip (py_lstrip s).

(** ** The uploaded file and the query form, as Streamlit hands them over *)

Record uploaded_file := UploadedFile {
  file_name : string;               (* file.name *)
  getbuffer : list Byte.byte        (* file.getbuffer() *)
}.

Record query_form := QueryForm {
  question : string;                (* st.text_input *)
  top_k : Z;                        (* st.number_input, an int *)
  submitted : bool                  (* st.form_submit_button *)
}.

Section Script.

Variable E : environment.

(** [requests.get(url)]: the call is logged and takes its latency whether
    or not it comes back with a response. *)
Definition requests_get (url : string) : M response :=
  fun w =>
    let n := length (requests w) in
    let w' := set_now (now w + latency E n) (log_request url w) in
    match server E url n with
    | None => (Raise RequestException, w')
    | Some r => (Return r, w')
    end.

Definition _inngest_api_base : string :=
  match INNGEST_API_BASE E with
  | Some base => base
  | None => "http://127.0.0.1:8288/v1"
  end.

Definition runs_url (event_id : string) : string :=
  _inngest_api_base ++ "/events/" ++ event_id ++ "/runs".

Definition fetch_runs (event_id : string) : M pyval :=
  let url := runs_url event_id in
  resp <- requests_get url ;;
  raise_for_status resp ;;
  data <- resp_json resp ;;
  py_get data "data" (PList []).

Definition success_labels : list string :=
  ["Completed"; "Succeeded"; "Success"; "Finished"].
Definition failure_labels : list string := ["Failed"; "Cancelled"].

(** The body of [while True], [fuel] iterations deep. *)
Fixpoint wait_loop (fuel : nat) (event_id : string)
    (timeout_s poll_interval_s start : Q) (last_status : pyval) : M pyval :=
  match fuel with
  | O => out_of_fuel
  | S fuel' =>
      runs <- fetch_runs event_id ;;
      let check_timeout (last_status : pyval) : M pyval :=
        t <- time_time ;;
        if Qgtb (t - start) timeout_s
        then raise (TimeoutError last_status)
        else
          time_sleep poll_interval_s ;;
          wait_loop fuel' event_id timeout_s poll_interval_s start last_status
      in
      if truthy runs then
        run <- py_getitem0 runs ;;
        status <- py_get run "status" PNone ;;
        let last_status := py_or status last_status in
        if py_in status success_labels then
          output <- py_get run "output" PNone ;;
          ret (py_or output (PDict ∅))
        else if py_in status failure_labels then
          raise (RuntimeError status)
        else check_timeout last_status
      else check_timeout last_status
  end.

Definition wait_for_run_output (fuel : nat) (event_id : string)
    (timeout_s poll_interval_s : Q) : M pyval :=
  start <- time_time ;;
  wait_loop fuel event_id timeout_s poll_interval_s start PNone.

Definition default_timeout_s : Q := 120.
Definition default_poll_interval_s : Q := 1 # 2.

(** [client.send(event)]: the submission is logged whether or not it is
    acknowledged. *)
Definition client_send (ev : event) : M (list string) :=
  fun w =>
    let w' := log_event ev w in
    match inngest E (length (sent w)) ev with
    | inl reason => (Raise (SendError reason), w')
    | inr ids => (Return ids, w')
    end.

Definition start_dir (p : path) : list string :=
  match path_anchor p with
  | Rel => cwd E
  | _ => []
  end.

(** [p.resolve()]: absolute from the single-slash root, [..] folded
    away. *)
Definition path_resolve (p : path) : path :=
  {| path_anchor := Abs;
     path_parts := fold_left enter (path_parts p) (start_dir p) |}.

(** [p.mkdir(parents=True, exist_ok=True)] *)
Definition path_mkdir (p : path) : M unit :=
  fun w =>
    match path_refused (path_str p) with
    | Some e => (Raise e, w)
    | None =>
        match walk (files w) (start_dir p) [] with
        | inl e => (Raise e, w)
        | inr cur =>
            match make_dirs (files w) cur (path_parts p) with
            | inl e => (Raise e, w)
            | inr fs => (Return tt, set_files fs w)
            end
        end
    end.

(** [p.write_bytes(data)]: open for writing (create or truncate), write
    everything, return the number of bytes written. *)
Definition path_write_bytes (p : path) (data : list Byte.byte) : M nat :=
  fun w =>
    match path_refused (path_str p) with
    | Some e => (Raise e, w)
    | None =>
        match path_parts p with
        | [] => (Raise IsADirectoryError, w)
        | _ :: _ =>
            let leaf := List.last (path_parts p) "" in
            match walk (files w) (start_dir p) (removelast (path_parts p)) with
            | inl e => (Raise e, w)
            | inr d =>
                if (leaf =? "..")%string then (Raise IsADirectoryError, w)
                else if name_too_long leaf then (Raise (OSError ENAMETOOLONG), w)
                else match node_at (files w) (d ++ [leaf])%list with
                     | Some Dir => (Raise IsADirectoryError, w)
                     | _ => (Return (length data),
                             set_files (<[(d ++ [leaf])%list := File data]> (files w)) w)
                     end
            end
        end
    end.

Definition save_uploaded_pdf (file : uploaded_file) : M path :=
  let uploads_dir := path_of_string "uploads" in
  path_mkdir uploads_dir ;;
  let file_path := path_join uploads_dir (file_name file) in
  let file_bytes := getbuffer file in
  path_write_bytes file_path file_bytes ;;
  ret file_path.

Definition send_rag_ingest_event (pdf_path : path) : M unit :=
  client_send
    {| event_name := "rag/ingest_pdf";
       event_data := {[ "pdf_path" := PStr (path_str (path_resolve pdf_path));
                        "source_id" := PStr (path_name pdf_path) ]} |} ;;
  ret tt.

Definition send_rag_query_event (question : string) (top_k : Z) : M string :=
  result <- client_send
    {| event_name := "rag/query_pdf_ai";
       event_data := {[ "question" := PStr question; "top_k" := PInt top_k ]} |} ;;
  match result with
  | id :: _ => ret id
  | [] => raise IndexError
  end.

(** The upload panel: [if uploaded is not None: ...]; the value is the path
    shown in the success message. *)
Definition upload_panel (uploaded : option uploaded_file) : M (option path) :=
  match uploaded with
  | Some file =>
      p <- save_uploaded_pdf file ;;
      send_rag_ingest_event p ;;
      time_sleep (3 # 10) ;;
      ret (Some p)
  | None => ret None
  end.

(** The query form: [if submitted and question.strip(): ...]; the value is
    the pair [(answer, sources)] handed to the rendering. *)
Definition rag_query_form (fuel : nat) (f : query_form)
  : M (option (pyval * pyval)) :=
  if submitted f && truthy (PStr (py_strip (question f))) then
    event_id <- send_rag_query_event (py_strip (question f)) (top_k f) ;;
    output <- wait_for_run_output fuel event_id
                default_timeout_s default_poll_interval_s ;;
    answer <- py_get output "answer" (PStr "") ;;
    sources <- py_get output "sources" (PList []) ;;
    ret (Some (answer, sources))
  else ret None.

End Script.

(** ** Reading a call of the poller as a sequence of polls

    The definitions below describe a reply of the server by what the run
    list in it shows, and the worlds a call goes through while it keeps
    retrying; they are the vocabulary of the statements about
    [wait_for_run_output]. *)

Section Polls.

Variable E : environment.
Variable event_id : string.
Variables timeout_s poll_interval_s : Q.

(** The reply to the [n]-th request when it asks for the runs of
    [event_id]. *)
Definition reply (n : nat) : option response := server E (runs_url E event_id) n.

(** [resp.ok] of requests: the status is not in the 4xx or 5xx class. *)
Definition response_ok (resp : response) : bool :=
  negb ((400 <=? status_code resp) && (status_code resp <? 600))%Z.

(** The run list a reply carries: the value of its ["data"] key ([[]] when
    the key is missing), provided the response is ok and its body is a JSON
    object. *)
Definition run_list (r : option response) : option pyval :=
  match r with
  | Some resp =>
      if response_ok resp then
        match json_body resp with
        | Some (PDict d) =>
            Some (match d !! "data" with Some v => v | None => PList [] end)
        | _ => None
        end
      else None
  | None => None
  end.

(** The first run of the list, when the list is non-empty and starts with a
    JSON object. *)
Definition first_run (r : option response) : option (gmap string pyval) :=
  match run_list r with
  | Some (PList (PDict run :: _)) => Some run
  | _ => None
  end.

(** The reply carries no run: the list is empty (or a falsy value). *)
Definition no_runs (r : option response) : bool :=
  match run_list r with
  | Some runs => negb (truthy runs)
  | None => false
  end.

Definition status_of (run : gmap string pyval) : pyval :=
  match run !! "status" with Some v => v | None => PNone end.

Definition output_of (run : gmap string pyval) : pyval :=
  match run !! "output" with Some v => v | None => PNone end.

Definition is_success (status : pyval) : bool := py_in status success_labels.
Definition is_failure (status : pyval) : bool := py_in status failure_labels.
Definition is_terminal (status : pyval) : bool :=
  is_success status || is_failure status.

(** A poll after which the loop goes on to its timeout check: no run yet,
    or a first run whose status is not terminal. *)
Definition pending (r : option response) : bool :=
  no_runs r ||
  match first_run r with
  | Some run => negb (is_terminal (status_of run))
  | None => false
  end.

(** The status a reply shows ([None] when it shows no run). *)
Definition shown_status (r : option response) : pyval :=
  match first_run r with Some run => status_of run | None => PNone end.

(** The world once the next request has been answered. *)
Definition after_get (w : world) : world :=
  set_now (now w + latency E (length (requests w)))
          (log_request (runs_url E event_id) w).

(** The world once the loop has, after that request, slept. *)
Definition next_poll (w : world) : world :=
  set_now (now (after_get w) + poll_interval_s) (after_get w).

(** The world in which iteration [k] (from 0) starts, for a loop entered in
    [w], when every earlier iteration went to sleep. *)
Fixpoint before_poll (w : world) (k : nat) : world :=
  match k with
  | O => w
  | S k' => before_poll (next_poll w) k'
  end.

(** The reply iteration [k] receives and the clock at its timeout check. *)
Definition poll (w : world) (k : nat) : option response :=
  reply (length (requests (before_poll w k))).
Definition check_time (w : world) (k : nat) : Q :=
  now (after_get (before_poll w k)).

(** [last_status] at the start of iteration [k], for a loop entered in [w]
    with [init]. *)
Fixpoint last_status_before (init : pyval) (w : world) (k : nat) : pyval :=
  match k with
  | O => init
  | S k' => last_status_before (py_or (shown_status (poll w 0)) init) (next_poll w) k'
  end.

(** Iterations [0 .. k-1] of a loop entered in [w] at time [start] all go
    to sleep: each sees a pending poll, finds the timeout not exceeded and,
    if there is such an iteration at all, can sleep for the interval. *)
Definition retries (start : Q) (w : world) (k : nat) : Prop :=
  (k = 0%nat \/ (0 <= poll_interval_s)%Q) /\
  forall j, (j < k)%nat ->
    pending (poll w j) = true /\ (check_time w j - start <= timeout_s)%Q.

(** What one iteration decides, as a function of the reply. *)
Inductive verdict :=
| VReturn (output : pyval)
| VRaise (e : exn)
| VRetry (last_status : pyval).

Definition verdict_of (r : option response) (last_status : pyval) : verdict :=
  match r with
  | None => VRaise RequestException
  | Some resp =>
      if response_ok resp then
        match json_body resp with
        | None => VRaise JSONDecodeError
        | Some (PDict d) =>
            let runs := match d !! "data" with Some v => v | None => PList [] end in
            if truthy runs then
              match runs with
              | PList (PDict run :: _) =>
                  if is_success (status_of run) then
                    VReturn (py_or (output_of run) (PDict ∅))
                  else if is_failure (status_of run) then
                    VRaise (RuntimeError (status_of run))
                  else VRetry (py_or (status_of run) last_status)
              | PList (_ :: _) => VRaise AttributeError
              | PList [] => VRaise IndexError
              | PStr _ => VRaise AttributeError
              | PDict _ => VRaise KeyError
              | _ => VRaise TypeError
              end
            else VRetry last_status
        | Some _ => VRaise AttributeError
        end
      else VRaise (HTTPError (status_code resp))
  end.

End Polls.

(** ** A server that always sends the ["data"] key *)

(** The reply with ["data": []] added when an ok response carries a JSON
    object without that key; any other reply unchanged. *)
Definition fill_data (r : option response) : option response :=
  match r with
  | Some resp =>
      if response_ok resp then
        match json_body resp with
        | Some (PDict d) =>
            match d !! "data" with
            | None =>
                Some {| status_code := status_code resp;
                        json_body := Some (PDict (<["data" := PList []]> d)) |}
            | Some _ => r
            end
        | _ => r
        end
      else r
  | None => r
  end.

Definition default_data_env (E : environment) : environment :=
  {| INNGEST_API_BASE := INNGEST_API_BASE E;
     cwd := cwd E;
     server := fun url n => fill_data (server E url n);
     latency := latency E;
     inngest := inngest E |}.

(** ** Scripted surroundings, for running the script on examples *)

(** A 200 response whose body is [{"data": runs}]. *)
Definition ok_response (runs : pyval) : option response :=
  Some {| status_code := 200; json_body := Some (PDict {[ "data" := runs ]}) |}.

(** A run [{"status": status, "output": output}]. *)
Definition run_with (status : string) (output : pyval) : pyval :=
  PDict {[ "status" := PStr status; "output" := output ]}.

(** A server that answers the [n]-th request with the [n]-th reply of a
    script and keeps answering [final] once the script is over; every
    request takes [lat] seconds; the Inngest client acknowledges [acks]. *)
Definition scripted_env (script : list (option response)) (final : option response)
    (lat : Q) (acks : string + list string) : environment :=
  {| INNGEST_API_BASE := None;
     cwd := ["srv"; "app"];
     server := fun _ n => nth n script final;
     latency := fun _ => lat;
     inngest := fun _ _ => acks |}.

(** A world at time 0 whose file system holds the working directory only. *)
Definition fresh_world : world :=
  {| now := 0; requests := []; sent := [];
     files := {[ ["srv"] := Dir; ["srv"; "app"] := Dir ]} |}.

Definition answer_42 : pyval :=
  PDict {[ "answer" := PStr "42"; "sources" := PList [PStr "doc.pdf"] ]}.

(** Running, running, completed. *)
Definition env_completes_third : environment :=
  scripted_env [ok_response (PList [run_with "Running" PNone]);
                ok_response (PList [run_with "Running" PNone])]
               (ok_response (PList [run_with "Completed" answer_42]))
               (1 # 10) (inr ["evt_1"]).

(** Queued, then failed. *)
Definition env_fails_second : environment :=
  scripted_env [ok_response (PList [run_with "Queued" PNone])]
               (ok_response (PList [run_with "Failed" PNone]))
               (1 # 10) (inr ["evt_1"]).

(** No run, ever; requests take no time. *)
Definition env_never_runs : environment :=
  scripted_env [] (ok_response (PList [])) 0 (inr ["evt_1"]).

(** Running once, then no run any more; requests take no time. *)
Definition env_stalls : environment :=
  scripted_env [ok_response (PList [run_with "Running" PNone])]
               (ok_response (PList [])) 0 (inr ["evt_1"]).

(** Completed at once, after a slow request. *)
Definition env_completes_first : environment :=
  scripted_env [] (ok_response (PList [run_with "Completed" answer_42]))
               5 (inr ["evt_1"]).

(** A 300 whose body lists a completed run, and a 304 without a body. *)
Definition env_multiple_choices : environment :=
  scripted_env []
    (Some {| status_code := 300;
             json_body := Some (PDict {[ "data" :=
                            PList [run_with "Completed" answer_42] ]}) |})
    0 (inr ["evt_1"]).

Definition env_not_modified : environment :=
  scripted_env [] (Some {| status_code := 304; json_body := None |})
    0 (inr ["evt_1"]).

(** Running, then a 503. *)
Definition env_unavailable : environment :=
  scripted_env [ok_response (PList [run_with "Running" PNone])]
               (Some {| status_code := 503; json_body := None |})
               (1 # 10) (inr ["evt_1"]).

(** An uploaded file and a submitted form. *)
Definition report_pdf : uploaded_file :=
  {| file_name := "doc.pdf"; getbuffer := [Byte.x25; Byte.x50; Byte.x44; Byte.x46] |}.

Definition padded_form : query_form :=
  {| question := "  What is RAG? "; top_k := 5; submitted := true |}.

(** A second upload under the same name, an upload whose name climbs out
    of the directory, a blank form, and a world where [uploads] is a
    regular file. *)
Definition report_pdf_v2 : uploaded_file :=
  {| file_name := "doc.pdf"; getbuffer := [Byte.x25; Byte.x50; Byte.x44; Byte.x46; Byte.x32] |}.

Definition climbing_upload : uploaded_file :=
  {| file_name := "../notes.txt"; getbuffer := [Byte.x68; Byte.x69] |}.

Definition blank_form : query_form :=
  {| question := "   "; top_k := 5; submitted := true |}.

Definition world_uploads_is_file : world :=
  {| now := 0; requests := []; sent := [];
     files := {[ ["srv"] := Dir; ["srv"; "app"] := Dir;
                 ["srv"; "app"; "uploads"] := File [] ]} |}.

(** Names the operating system refuses: one with a NUL, one of 256 bytes,
    and one of 200 two-byte characters. *)
Fixpoint string_of (n : nat) (c : ascii) : string :=
  match n with
  | O => EmptyString
  | S n' => String c (string_of n' c)
  end.

Definition nul_upload : uploaded_file :=
  {| file_name := String (ascii_of_nat 0) "a.pdf"; getbuffer := [Byte.x25] |}.

Definition long_upload (n : nat) (c : ascii) : uploaded_file :=
  {| file_name := string_of n c; getbuffer := [Byte.x25] |}.

(** A server whose run list holds a string instead of a run. *)
Definition env_malformed : environment :=
  scripted_env [] (ok_response (PList [PStr "run-1"])) 0 (inr ["evt_1"]).

(** A client that cannot reach the engine. *)
Definition env_unreachable : environment :=
  scripted_env [] (ok_response (PList [])) 0 (inl "connection refused").

(** * Properties *)

Local Open Scope list_scope.

(** ** Comparisons and labels *)

Lemma Qgtb_true a b : Qgtb a b = true <-> (b < a)%Q.
Proof.
  unfold Qgtb. rewrite negb_true_iff, <- not_true_iff_false, Qle_bool_iff.
  split; [apply Qnot_le_lt | apply Qlt_not_le].
Qed.

Lemma Qgtb_false a b : Qgtb a b = false <-> (a <= b)%Q.
Proof. unfold Qgtb. rewrite negb_false_iff. apply Qle_bool_iff. Qed.

Lemma is_success_spec status :
  is_success status = true <->
  exists s, status = PStr s /\ s ∈ success_labels.
Proof.
  unfold is_success, py_in. split.
  - destruct status as [ | | | |s| | ]; try discriminate.
    intros H. exists s. split; [reflexivity|].
    apply existsb_exists in H as (l & Hin & Heq).
    apply String.eqb_eq in Heq. subst l. by apply list_elem_of_In.
  - intros (s & -> & Hin). apply existsb_exists. exists s.
    split; [by apply list_elem_of_In | apply String.eqb_refl].
Qed.

Lemma is_failure_spec status :
  is_failure status = true <->
  status = PStr "Failed" \/ status = PStr "Cancelled".
Proof.
  unfold is_failure, py_in, failure_labels. split.
  - destruct status as [ | | | |s| | ]; try discriminate.
    cbn [existsb]. rewrite !orb_true_iff, !String.eqb_eq.
    intros [->|[->|?]]; auto; discriminate.
  - intros [->| ->]; reflexivity.
Qed.

Lemma failure_not_success status :
  is_failure status = true -> is_success status = false.
Proof. rewrite is_failure_spec. intros [->| ->]; reflexivity. Qed.

Lemma truthy_success status : is_success status = true -> truthy status = true.
Proof.
  rewrite is_success_spec. intros (s & -> & Hin).
  apply list_elem_of_In in Hin. cbn in Hin.
  destruct Hin as [<-|[<-|[<-|[<-|[]]]]]; reflexivity.
Qed.

(** [output or {}] is the output itself whenever the output is a mapping. *)
Lemma mapping_or_empty d : py_or (PDict d) (PDict ∅) = PDict d.
Proof.
  unfold py_or, truthy. destruct (bool_decide_reflect (d = ∅)) as [->|]; done.
Qed.

(** ** What a reply makes the loop do *)

Ltac verdict_cases := repeat case_match; simplify_eq/=; eauto; try done; try congruence.

Lemma verdict_return r last_status out :
  verdict_of r last_status = VReturn out <->
  exists run, first_run r = Some run /\ is_success (status_of run) = true /\
              out = py_or (output_of run) (PDict ∅).
Proof.
  unfold verdict_of, first_run, run_list. split.
  - intros H. verdict_cases.
  - intros (run & H1 & H2 & ->). verdict_cases.
Qed.

Lemma verdict_runtime_error r last_status status :
  verdict_of r last_status = VRaise (RuntimeError status) <->
  exists run, first_run r = Some run /\ is_failure (status_of run) = true /\
              status = status_of run.
Proof.
  unfold verdict_of, first_run, run_list. split.
  - intros H. verdict_cases.
  - intros (run & H1 & H2 & ->). pose proof (failure_not_success _ H2).
    verdict_cases.
Qed.

Lemma verdict_retry r last_status last' :
  verdict_of r last_status = VRetry last' <->
  pending r = true /\ last' = py_or (shown_status r) last_status.
Proof.
  unfold verdict_of, pending, no_runs, shown_status, first_run, run_list, is_terminal. split.
  - intros H. verdict_cases.
  - intros [H ->]. verdict_cases.
    all: repeat match goal with
                | Hx : ?b = true, Hy : context [?b] |- _ => rewrite Hx in Hy
                | Hx : ?b = false, Hy : context [?b] |- _ => rewrite Hx in Hy
                end; simplify_eq/=.
Qed.

Lemma verdict_http_error resp last_status :
  response_ok resp = false ->
  verdict_of (Some resp) last_status = VRaise (HTTPError (status_code resp)).
Proof. intros H. unfold verdict_of. by rewrite H. Qed.

Lemma verdict_not_timeout r last_status status :
  verdict_of r last_status <> VRaise (TimeoutError status).
Proof. unfold verdict_of. verdict_cases. Qed.

Lemma verdict_not_value_error r last_status :
  verdict_of r last_status <> VRaise ValueError.
Proof. unfold verdict_of. verdict_cases. Qed.

Lemma pending_first_run r run :
  first_run r = Some run -> is_terminal (status_of run) = false -> pending r = true.
Proof. unfold pending. intros -> ->. apply orb_true_r. Qed.

Lemma pending_no_runs r : run_list r = Some (PList []) -> pending r = true.
Proof. unfold pending, no_runs. by intros ->. Qed.

Lemma shown_status_no_runs r : run_list r = Some (PList []) -> shown_status r = PNone.
Proof. unfold shown_status, first_run. by intros ->. Qed.

Lemma verdict_fill_data r last_status :
  verdict_of (fill_data r) last_status = verdict_of r last_status.
Proof.
  unfold fill_data. destruct r as [resp|]; [|done].
  destruct (response_ok resp) eqn:Hok; [|done].
  destruct (json_body resp) as [[ | | | | | |d]|] eqn:Hbody; try done.
  destruct (d !! "data") eqn:Hdata; [done|].
  unfold verdict_of, response_ok in *. cbn [status_code json_body].
  by rewrite Hok, Hbody, Hdata, lookup_insert_eq.
Qed.

(** ** The first index at which a decidable property holds *)

Lemma least_index (P : nat -> Prop) (dec : forall n, {P n} + {~ P n}) K :
  P K -> exists k, (k <= K)%nat /\ P k /\ forall j, (j < k)%nat -> ~ P j.
Proof.
  assert (forall n, (forall j, (j < n)%nat -> ~ P j) \/
                    exists k, (k < n)%nat /\ P k /\ forall j, (j < k)%nat -> ~ P j) as Hscan.
  { induction n as [|n [Hnone|(k & Hk & HP & Hleast)]].
    - left. intros j Hj. lia.
    - destruct (dec n) as [HP|HnP].
      + right. exists n. split; [lia | by split].
      + left. intros j Hj. destruct (decide (j = n)) as [->|Hne]; [done|].
        apply Hnone. lia.
    - right. exists k. split; [lia | by split]. }
  intros HP. destruct (Hscan K) as [Hnone|(k & Hk & HPk & Hleast)].
  - exists K. split; [lia | by split].
  - exists k. split; [lia | by split].
Qed.

Lemma Qlt_dec' (x y : Q) : {(x < y)%Q} + {~ (x < y)%Q}.
Proof.
  destruct (Qlt_le_dec x y) as [Hlt|Hle]; [by left | right; by apply Qle_not_lt].
Qed.

Section PollFacts.

Variable E : environment.
Variable event_id : string.
Variables timeout_s poll_interval_s : Q.

Local Abbreviation wait_loop' := (wait_loop E).
Local Abbreviation after_get' := (after_get E event_id).
Local Abbreviation next_poll' := (next_poll E event_id poll_interval_s).
Local Abbreviation before_poll' := (before_poll E event_id poll_interval_s).
Local Abbreviation poll' := (poll E event_id poll_interval_s).
Local Abbreviation check_time' := (check_time E event_id poll_interval_s).
Local Abbreviation last_status_before' := (last_status_before E event_id poll_interval_s).
Local Abbreviation retries' := (retries E event_id timeout_s poll_interval_s).

Lemma wait_loop_step fuel start last_status w :
  wait_loop' (S fuel) event_id timeout_s poll_interval_s start last_status w =
  match verdict_of (poll' w 0) last_status with
  | VReturn out => (Return out, after_get' w)
  | VRaise e => (Raise e, after_get' w)
  | VRetry last' =>
      if Qgtb (check_time' w 0 - start) timeout_s
      then (Raise (TimeoutError last'), after_get' w)
      else if Qgtb 0 poll_interval_s then (Raise ValueError, after_get' w)
      else wait_loop' fuel event_id timeout_s poll_interval_s start last'
             (next_poll' w)
  end.
Proof.
  cbn [wait_loop].
  unfold fetch_runs, requests_get, raise_for_status, resp_json, poll, check_time,
    next_poll, reply, after_get, py_getitem0, py_get, time_time, time_sleep,
    bind, ret, raise.
  cbn [before_poll].
  destruct (server E (runs_url E event_id) (length (requests w))) as [[c body]|];
    cbn [verdict_of]; unfold response_ok; cbn [status_code json_body];
    [|reflexivity].
  destruct ((400 <=? c) && (c <? 600))%Z; [reflexivity|].
  destruct body as [data|]; [|reflexivity].
  destruct data as [ | | | | | |d]; try reflexivity.
  cbn beta iota zeta.
  set (runs := match d !! "data" with Some v => v | None => PList [] end).
  destruct (truthy runs) eqn:Htr.
  2:{ destruct (Qgtb _ timeout_s); [reflexivity|].
      destruct (Qgtb 0 poll_interval_s); reflexivity. }
  destruct runs as [ | | | |s|l|d']; try reflexivity.
  - destruct s; [discriminate Htr|reflexivity].
  - destruct l as [|x l]; [discriminate Htr|].
    destruct x as [ | | | | | |run]; try reflexivity.
    cbn beta iota zeta.
    fold (status_of run). fold (output_of run). unfold is_success, is_failure.
    destruct (py_in (status_of run) success_labels); [reflexivity|].
    destruct (py_in (status_of run) failure_labels); [reflexivity|].
    destruct (Qgtb _ timeout_s); [reflexivity|].
    destruct (Qgtb 0 poll_interval_s); reflexivity.
Qed.

Lemma retries_0 start w : retries' start w 0.
Proof. split; [by left | intros j Hj; lia]. Qed.

Lemma retries_S start w k :
  retries' start w (S k) <->
  pending (poll' w 0) = true /\ (check_time' w 0 - start <= timeout_s)%Q /\
  (0 <= poll_interval_s)%Q /\ retries' start (next_poll' w) k.
Proof.
  unfold retries. split.
  - intros [[Hk|HI] Hall]; [lia|]. destruct (Hall 0%nat) as [Hp Ht]; [lia|].
    do 3 (split; [done|]). split; [by right|].
    intros j Hj. apply (Hall (S j)). lia.
  - intros (Hp & Ht & HI & _ & Hall). split; [by right|].
    intros [|j] Hj; [auto|]. apply (Hall j). lia.
Qed.

(** A loop that retries [k] times is, from then on, the loop entered in the
    world and with the status it has reached. *)
Lemma wait_loop_skip k : forall fuel start last_status w,
  retries' start w k ->
  wait_loop' (k + fuel) event_id timeout_s poll_interval_s start last_status w =
  wait_loop' fuel event_id timeout_s poll_interval_s start
    (last_status_before' last_status w k) (before_poll' w k).
Proof.
  induction k as [|k IH]; intros fuel start last_status w Hr; [reflexivity|].
  apply retries_S in Hr as (Hp & Ht & HI & Hr).
  change (S k + fuel)%nat with (S (k + fuel)). rewrite wait_loop_step.
  rewrite (proj2 (verdict_retry _ last_status _) (conj Hp eq_refl)).
  apply Qgtb_false in Ht. rewrite Ht.
  assert (Qgtb 0 poll_interval_s = false) as -> by by apply Qgtb_false.
  by rewrite IH.
Qed.

(** Conversely, a loop that answers has retried some [k] times and got its
    answer from iteration [k]. *)
Lemma wait_loop_answer fuel : forall start last_status w o w',
  wait_loop' fuel event_id timeout_s poll_interval_s start last_status w = (o, w') ->
  o <> OutOfFuel ->
  exists k, (k < fuel)%nat /\ retries' start w k /\
    w' = after_get' (before_poll' w k) /\
    match verdict_of (poll' w k) (last_status_before' last_status w k) with
    | VReturn out => o = Return out
    | VRaise e => o = Raise e
    | VRetry last' =>
        ((timeout_s < check_time' w k - start)%Q /\ o = Raise (TimeoutError last')) \/
        ((check_time' w k - start <= timeout_s)%Q /\ (poll_interval_s < 0)%Q /\
         o = Raise ValueError)
    end.
Proof.
  induction fuel as [|fuel IH]; intros start last_status w o w' H Ho.
  { cbn in H. by injection H as <- <-. }
  rewrite wait_loop_step in H.
  destruct (verdict_of (poll' w 0) last_status) as [out|e|last'] eqn:Hv.
  - injection H as <- <-. exists 0%nat.
    split; [lia|]. split; [apply retries_0|]. split; [done|].
    cbn [last_status_before before_poll]. by rewrite Hv.
  - injection H as <- <-. exists 0%nat.
    split; [lia|]. split; [apply retries_0|]. split; [done|].
    cbn [last_status_before before_poll]. by rewrite Hv.
  - destruct (Qgtb (check_time' w 0 - start) timeout_s) eqn:Ht.
    { injection H as <- <-. exists 0%nat.
      split; [lia|]. split; [apply retries_0|]. split; [done|].
      cbn [last_status_before before_poll].
      rewrite Hv. left. split; [by apply Qgtb_true | reflexivity]. }
    destruct (Qgtb 0 poll_interval_s) eqn:HI.
    { injection H as <- <-. exists 0%nat.
      split; [lia|]. split; [apply retries_0|]. split; [done|].
      cbn [last_status_before before_poll].
      rewrite Hv. right. split; [by apply Qgtb_false|]. split; [by apply Qgtb_true | done]. }
    apply IH in H as (k & Hk & Hr & -> & Hlast); [|done].
    apply verdict_retry in Hv as [Hp ->].
    exists (S k). split; [lia|]. split; [|done].
    apply retries_S. split; [done|]. split; [by apply Qgtb_false|].
    split; [by apply Qgtb_false | done].
Qed.

(** The same, read forwards: what a loop with fuel left does at iteration
    [k] once it has retried [k] times. *)
Lemma wait_loop_reach k m start last_status w :
  retries' start w k ->
  wait_loop' (k + S m) event_id timeout_s poll_interval_s start last_status w =
  match verdict_of (poll' w k) (last_status_before' last_status w k) with
  | VReturn out => (Return out, after_get' (before_poll' w k))
  | VRaise e => (Raise e, after_get' (before_poll' w k))
  | VRetry last' =>
      if Qgtb (check_time' w k - start) timeout_s
      then (Raise (TimeoutError last'), after_get' (before_poll' w k))
      else if Qgtb 0 poll_interval_s
      then (Raise ValueError, after_get' (before_poll' w k))
      else wait_loop' m event_id timeout_s poll_interval_s start last'
             (next_poll' (before_poll' w k))
  end.
Proof. intros Hr. rewrite wait_loop_skip by done. by rewrite wait_loop_step. Qed.

Lemma wait_for_run_output_loop fuel w :
  wait_for_run_output E fuel event_id timeout_s poll_interval_s w =
  wait_loop' fuel event_id timeout_s poll_interval_s (now w) PNone w.
Proof. reflexivity. Qed.

(** ** The request log and the other parts of the world *)

Lemma requests_before_poll w k :
  requests (before_poll' w k) = requests w ++ replicate k (runs_url E event_id).
Proof.
  revert w. induction k as [|k IH]; intros w; cbn [before_poll replicate].
  - by rewrite app_nil_r.
  - rewrite IH. cbn. by rewrite <- app_assoc.
Qed.

Lemma requests_after_poll w k :
  requests (after_get' (before_poll' w k)) =
  requests w ++ replicate (S k) (runs_url E event_id).
Proof.
  cbn [after_get set_now log_request requests]. rewrite requests_before_poll.
  rewrite <- app_assoc. f_equal.
  change [runs_url E event_id] with (replicate 1 (runs_url E event_id)).
  rewrite <- replicate_add. f_equal. lia.
Qed.

Lemma poll_index w k : poll' w k = reply E event_id (length (requests w) + k).
Proof.
  unfold poll. by rewrite requests_before_poll, length_app, length_replicate.
Qed.

Lemma sent_after_poll w k : sent (after_get' (before_poll' w k)) = sent w.
Proof. revert w. induction k as [|k IH]; intros w; [done|]. cbn [before_poll]. by rewrite IH. Qed.

Lemma files_after_poll w k : files (after_get' (before_poll' w k)) = files w.
Proof. revert w. induction k as [|k IH]; intros w; [done|]. cbn [before_poll]. by rewrite IH. Qed.

(** ** Success *)

(** C1. [wait_for_run_output] returns [out] exactly when some iteration [k]
    is the first whose reply shows a non-empty run list with a first run in
    a success status (every earlier iteration saw a pending poll, was within
    the timeout and slept), and [out] is that run's output, or the empty
    mapping when the output is absent (or falsy). It returns on that
    iteration's request: nothing is returned while the status is not
    terminal. *)
Theorem wait_returns_iff_first_success fuel w0 out w' :
  wait_for_run_output E fuel event_id timeout_s poll_interval_s w0 = (Return out, w')
  <->
  exists k run,
    (k < fuel)%nat /\
    retries' (now w0) w0 k /\
    first_run (poll' w0 k) = Some run /\
    (exists s, status_of run = PStr s /\
               s ∈ ["Completed"; "Succeeded"; "Success"; "Finished"]) /\
    out = match run !! "output" with
          | Some output => if truthy output then output else PDict ∅
          | None => PDict ∅
          end /\
    w' = after_get' (before_poll' w0 k).
Proof.
  rewrite wait_for_run_output_loop. split.
  - intros H. apply wait_loop_answer in H as (k & Hk & Hr & -> & Hv); [|done].
    destruct (verdict_of _ _) as [out'|e|last'] eqn:Hverdict.
    + injection Hv as ->. apply verdict_return in Hverdict as (run & Hrun & Hs & ->).
      exists k, run. do 3 (split; [done|]). split; [by apply is_success_spec|].
      split; [|done]. unfold py_or, output_of. by destruct (run !! "output").
    + discriminate Hv.
    + by destruct Hv as [[_ ?]|(_ & _ & ?)].
  - intros (k & run & Hk & Hr & Hrun & Hs & -> & ->).
    replace fuel with (k + S (fuel - S k))%nat by lia.
    rewrite wait_loop_reach by done.
    apply is_success_spec in Hs.
    rewrite (proj2 (verdict_return _ _ _) (ex_intro _ run (conj Hrun (conj Hs eq_refl)))).
    f_equal. f_equal. unfold py_or, output_of. by destruct (run !! "output").
Qed.

(** ** Failure *)

(** C3. [wait_for_run_output] raises the run-failed [RuntimeError] exactly
    when some iteration [k], reached through pending polls only, receives a
    non-empty run list whose first run has status ["Failed"] or
    ["Cancelled"]; the error carries that status (message
    [Function run <status>]) and the failing poll is the last request made:
    the log has grown by exactly [k + 1] requests. *)
Theorem wait_raises_run_failed_iff fuel w0 status w' :
  wait_for_run_output E fuel event_id timeout_s poll_interval_s w0
    = (Raise (RuntimeError status), w')
  <->
  exists k run,
    (k < fuel)%nat /\
    retries' (now w0) w0 k /\
    first_run (poll' w0 k) = Some run /\
    status_of run = status /\
    (exists s, status = PStr s /\ s ∈ ["Failed"; "Cancelled"] /\
               exn_message (RuntimeError status) = Some ("Function run " ++ s)%string) /\
    w' = after_get' (before_poll' w0 k) /\
    requests w' = requests w0 ++ replicate (S k) (runs_url E event_id).
Proof.
  rewrite wait_for_run_output_loop. split.
  - intros H. apply wait_loop_answer in H as (k & Hk & Hr & -> & Hv); [|done].
    destruct (verdict_of _ _) as [out'|e|last'] eqn:Hverdict.
    + discriminate Hv.
    + injection Hv as <-.
      apply verdict_runtime_error in Hverdict as (run & Hrun & Hf & ->).
      exists k, run. do 4 (split; [done|]).
      split; [|split; [done | apply requests_after_poll]].
      apply is_failure_spec in Hf as [Hf|Hf]; rewrite Hf.
      * exists "Failed". repeat split. set_solver.
      * exists "Cancelled". repeat split. set_solver.
    + by destruct Hv as [[_ ?]|(_ & _ & ?)].
  - intros (k & run & Hk & Hr & Hrun & <- & (s & Hs & Hin & _) & -> & _).
    replace fuel with (k + S (fuel - S k))%nat by lia.
    rewrite wait_loop_reach by done.
    assert (is_failure (status_of run) = true) as Hf.
    { apply is_failure_spec. rewrite Hs. apply list_elem_of_In in Hin.
      cbn in Hin. destruct Hin as [<-|[<-|[]]]; auto. }
    by rewrite (proj2 (verdict_runtime_error _ _ _)
                  (ex_intro _ run (conj Hrun (conj Hf eq_refl)))).
Qed.

(** ** HTTP errors *)

Lemma fetch_runs_http_error w resp :
  reply E event_id (length (requests w)) = Some resp ->
  response_ok resp = false ->
  fetch_runs E event_id w = (Raise (HTTPError (status_code resp)), after_get' w).
Proof.
  unfold reply, response_ok. intros Hreply Hok. apply negb_false_iff in Hok.
  unfold fetch_runs, requests_get, raise_for_status, bind.
  by rewrite Hreply, Hok.
Qed.

(** C7, as amended. When the reply to a poll has a status in the 4xx or
    5xx class (the statuses for which [raise_for_status] raises),
    [fetch_runs] raises the [HTTPError], and a [wait_for_run_output] that
    has reached this poll raises it too, without another request: the log
    ends with that request. *)
Theorem http_error_aborts_wait fuel k w0 resp :
  (k < fuel)%nat ->
  retries' (now w0) w0 k ->
  poll' w0 k = Some resp ->
  (400 <= status_code resp < 600)%Z ->
  fetch_runs E event_id (before_poll' w0 k)
    = (Raise (HTTPError (status_code resp)), after_get' (before_poll' w0 k)) /\
  wait_for_run_output E fuel event_id timeout_s poll_interval_s w0
    = (Raise (HTTPError (status_code resp)), after_get' (before_poll' w0 k)) /\
  requests (after_get' (before_poll' w0 k))
    = requests w0 ++ replicate (S k) (runs_url E event_id).
Proof.
  intros Hk Hr Hpoll Hstatus.
  assert (response_ok resp = false) as Hok.
  { unfold response_ok. apply negb_false_iff, andb_true_iff.
    split; [apply Z.leb_le | apply Z.ltb_lt]; lia. }
  split; [by apply fetch_runs_http_error|].
  split; [|apply requests_after_poll].
  rewrite wait_for_run_output_loop.
  replace fuel with (k + S (fuel - S k))%nat by lia.
  rewrite wait_loop_reach by done.
  by rewrite Hpoll, verdict_http_error.
Qed.

(** ** Timeouts *)

Lemma last_status_before_S init w k :
  last_status_before' init w (S k) =
  py_or (shown_status (poll' w k)) (last_status_before' init w k).
Proof.
  revert init w. induction k as [|k IH]; intros init w; [reflexivity|].
  change (last_status_before' init w (S (S k)))
    with (last_status_before' (py_or (shown_status (poll' w 0)) init)
            (next_poll' w) (S k)).
  by rewrite IH.
Qed.

(** The status a timeout carries is the latest truthy status shown... *)
Lemma last_status_latest init w k j :
  (j < k)%nat ->
  truthy (shown_status (poll' w j)) = true ->
  (forall i, (j < i < k)%nat -> truthy (shown_status (poll' w i)) = false) ->
  last_status_before' init w k = shown_status (poll' w j).
Proof.
  induction k as [|k IH]; intros Hj Hshown Hlater; [lia|].
  rewrite last_status_before_S. unfold py_or.
  destruct (decide (j = k)) as [->|Hne]; [by rewrite Hshown|].
  rewrite Hlater by lia. apply IH; [lia | done | intros i Hi; apply Hlater; lia].
Qed.

(** ... and the initial one when no status was truthy. *)
Lemma last_status_none init w k :
  (forall j, (j < k)%nat -> truthy (shown_status (poll' w j)) = false) ->
  last_status_before' init w k = init.
Proof.
  induction k as [|k IH]; intros Hnone; [reflexivity|].
  rewrite last_status_before_S. unfold py_or. rewrite Hnone by lia.
  apply IH. intros j Hj. apply Hnone. lia.
Qed.

Lemma wait_times_out fuel k w0 :
  (k < fuel)%nat ->
  retries' (now w0) w0 k ->
  pending (poll' w0 k) = true ->
  (timeout_s < check_time' w0 k - now w0)%Q ->
  wait_for_run_output E fuel event_id timeout_s poll_interval_s w0
    = (Raise (TimeoutError (last_status_before' PNone w0 (S k))),
       after_get' (before_poll' w0 k)).
Proof.
  intros Hk Hr Hp Ht. rewrite wait_for_run_output_loop.
  replace fuel with (k + S (fuel - S k))%nat by lia.
  rewrite wait_loop_reach by done.
  rewrite (proj2 (verdict_retry _ _ _) (conj Hp eq_refl)).
  apply Qgtb_true in Ht. rewrite Ht. by rewrite last_status_before_S.
Qed.

Lemma wait_timeout_inv fuel w0 status w' :
  wait_for_run_output E fuel event_id timeout_s poll_interval_s w0
    = (Raise (TimeoutError status), w') ->
  exists k, (k < fuel)%nat /\ retries' (now w0) w0 k /\
    pending (poll' w0 k) = true /\
    (timeout_s < check_time' w0 k - now w0)%Q /\
    status = last_status_before' PNone w0 (S k) /\
    w' = after_get' (before_poll' w0 k).
Proof.
  rewrite wait_for_run_output_loop. intros H.
  apply wait_loop_answer in H as (k & Hk & Hr & -> & Hv); [|done].
  destruct (verdict_of _ _) as [out'|e|last'] eqn:Hverdict.
  - discriminate Hv.
  - injection Hv as <-. by apply verdict_not_timeout in Hverdict.
  - apply verdict_retry in Hverdict as [Hp ->].
    destruct Hv as [[Ht Hv]|(_ & _ & Hv)]; [|discriminate Hv].
    injection Hv as ->. exists k. do 4 (split; [done|]).
    split; [|done]. by rewrite last_status_before_S.
Qed.

(** If the polls up to the [K]-th are all pending and the [K]-th check finds
    the timeout exceeded, the call raises [TimeoutError] at the first check
    [k <= K] that finds it exceeded. *)
Lemma wait_times_out_by fuel K w0 :
  (K < fuel)%nat ->
  (0 <= poll_interval_s)%Q ->
  (forall j, (j <= K)%nat -> pending (poll' w0 j) = true) ->
  (timeout_s < check_time' w0 K - now w0)%Q ->
  exists k, (k <= K)%nat /\
    (timeout_s < check_time' w0 k - now w0)%Q /\
    (forall j, (j < k)%nat -> (check_time' w0 j - now w0 <= timeout_s)%Q) /\
    wait_for_run_output E fuel event_id timeout_s poll_interval_s w0
      = (Raise (TimeoutError (last_status_before' PNone w0 (S k))),
         after_get' (before_poll' w0 k)).
Proof.
  intros HK HI Hpending Hlate.
  destruct (least_index (fun k => (timeout_s < check_time' w0 k - now w0)%Q)
              (fun k => Qlt_dec' _ _) K Hlate) as (k & Hk & Hfirst & Hearlier).
  exists k. split; [done|]. split; [done|].
  assert (forall j, (j < k)%nat -> (check_time' w0 j - now w0 <= timeout_s)%Q) as Hin.
  { intros j Hj. apply Qnot_lt_le. by apply Hearlier. }
  split; [done|].
  apply wait_times_out; [lia | | apply Hpending; lia | done].
  split; [by right|]. intros j Hj. split; [apply Hpending; lia | by apply Hin].
Qed.

End PollFacts.

(** ** Clock readings *)

Lemma check_time_0 E event_id poll_interval_s w :
  check_time E event_id poll_interval_s w 0 = (now w + latency E (length (requests w)))%Q.
Proof. reflexivity. Qed.

Lemma check_time_S E event_id poll_interval_s w k :
  check_time E event_id poll_interval_s w (S k) =
  check_time E event_id poll_interval_s (next_poll E event_id poll_interval_s w) k.
Proof. reflexivity. Qed.

(** Nonnegative latencies and interval: by its [k]-th check the loop has at
    least slept [k] times. *)
Lemma check_time_lower_bound E event_id poll_interval_s k : forall w,
  (forall n, 0 <= latency E n)%Q ->
  (0 <= poll_interval_s)%Q ->
  (now w + inject_Z (Z.of_nat k) * poll_interval_s
     <= check_time E event_id poll_interval_s w k)%Q.
Proof.
  induction k as [|k IH]; intros w Hlat HI.
  - rewrite check_time_0. pose proof (Hlat (length (requests w))).
    change (inject_Z (Z.of_nat 0)) with 0%Q. lra.
  - rewrite check_time_S. specialize (IH (next_poll E event_id poll_interval_s w) Hlat HI).
    cbn [next_poll now set_now after_get log_request] in IH.
    pose proof (Hlat (length (requests w))).
    rewrite Nat2Z.inj_succ. unfold Z.succ. rewrite inject_Z_plus.
    change (inject_Z 1) with 1%Q.
    lra.
Qed.

(** ** Timeouts, on every server *)

(** C2, as amended. If the polls up to the [K]-th are all pending and the
    [K]-th check finds the elapsed time above [timeout_s], the call raises
    [TimeoutError] at the first check [k <= K] that finds it so. The error
    carries the status of the latest poll that showed a truthy status, and
    [None] when no poll did; its message then ends in [last status: None].
    In particular, with empty run lists on every poll, a timeout of 1 s and
    a poll interval of 0.5 s, the call raises [TimeoutError] carrying
    [None], whatever the (nonnegative) latencies. *)
Theorem timeout_carries_last_truthy_status :
  (forall E event_id timeout_s poll_interval_s fuel K w0,
     (K < fuel)%nat ->
     (0 <= poll_interval_s)%Q ->
     (forall j, (j <= K)%nat -> pending (poll E event_id poll_interval_s w0 j) = true) ->
     (timeout_s < check_time E event_id poll_interval_s w0 K - now w0)%Q ->
     exists k status,
       (k <= K)%nat /\
       (timeout_s < check_time E event_id poll_interval_s w0 k - now w0)%Q /\
       (forall j, (j < k)%nat ->
          (check_time E event_id poll_interval_s w0 j - now w0 <= timeout_s)%Q) /\
       wait_for_run_output E fuel event_id timeout_s poll_interval_s w0
         = (Raise (TimeoutError status),
            after_get E event_id (before_poll E event_id poll_interval_s w0 k)) /\
       (forall j, (j <= k)%nat ->
          truthy (shown_status (poll E event_id poll_interval_s w0 j)) = true ->
          (forall i, (j < i <= k)%nat ->
             truthy (shown_status (poll E event_id poll_interval_s w0 i)) = false) ->
          status = shown_status (poll E event_id poll_interval_s w0 j)) /\
       ((forall j, (j <= k)%nat ->
           truthy (shown_status (poll E event_id poll_interval_s w0 j)) = false) ->
        status = PNone)) /\
  exn_message (TimeoutError PNone)
    = Some "Timed out waiting for run output (last status: None)" /\
  (forall E event_id fuel w0,
     (forall n, run_list (reply E event_id n) = Some (PList [])) ->
     (forall n, 0 <= latency E n)%Q ->
     (4 <= fuel)%nat ->
     exists w',
       wait_for_run_output E fuel event_id 1 (1 # 2) w0
         = (Raise (TimeoutError PNone), w')).
Proof.
  split; [|split; [reflexivity|]].
  - intros E event_id timeout_s poll_interval_s fuel K w0 HK HI Hpending Hlate.
    destruct (wait_times_out_by E event_id timeout_s poll_interval_s fuel K w0)
      as (k & Hk & Hfirst & Hearlier & Hwait); try done.
    exists k, (last_status_before E event_id poll_interval_s PNone w0 (S k)).
    do 4 (split; [done|]). split.
    + intros j Hj Hshown Hlater. apply last_status_latest; [lia | done |].
      intros i Hi. apply Hlater. lia.
    + intros Hnone. apply last_status_none. intros j Hj. apply Hnone. lia.
  - intros E event_id fuel w0 Hempty Hlat Hfuel.
    destruct (wait_times_out_by E event_id 1 (1 # 2) fuel 3 w0)
      as (k & Hk & _ & _ & Hwait).
    + lia.
    + done.
    + intros j _. rewrite poll_index. by apply pending_no_runs.
    + pose proof (check_time_lower_bound E event_id (1 # 2) 3 w0 Hlat).
      change (inject_Z (Z.of_nat 3)) with 3%Q in H. lra.
    + eexists. rewrite Hwait. f_equal. f_equal. f_equal.
      apply last_status_none. intros j _. rewrite poll_index.
      by rewrite shown_status_no_runs.
Qed.

(** C9. A call that raises [TimeoutError] has made at least one request,
    and the clock then reads strictly more than [timeout_s] past the start.
    With [timeout_s = 0], a first run that is already in a terminal status
    at the first poll is returned (success) or raised as [RuntimeError]
    (failure) all the same. *)
Theorem timeout_only_after_a_fetch_and_strictly_late :
  (forall E event_id timeout_s poll_interval_s fuel w0 status w',
     wait_for_run_output E fuel event_id timeout_s poll_interval_s w0
       = (Raise (TimeoutError status), w') ->
     (length (requests w0) < length (requests w'))%nat /\
     (timeout_s < now w' - now w0)%Q) /\
  (forall E event_id poll_interval_s fuel w0 run,
     first_run (reply E event_id (length (requests w0))) = Some run ->
     (is_success (status_of run) = true ->
      wait_for_run_output E (S fuel) event_id 0 poll_interval_s w0
        = (Return (py_or (output_of run) (PDict ∅)), after_get E event_id w0)) /\
     (is_failure (status_of run) = true ->
      wait_for_run_output E (S fuel) event_id 0 poll_interval_s w0
        = (Raise (RuntimeError (status_of run)), after_get E event_id w0))).
Proof.
  split.
  - intros E event_id timeout_s poll_interval_s fuel w0 status w' H.
    apply wait_timeout_inv in H as (k & Hk & Hr & Hp & Ht & -> & ->).
    split; [|done]. rewrite requests_after_poll, length_app, length_replicate. lia.
  - intros E event_id poll_interval_s fuel w0 run Hrun.
    rewrite wait_for_run_output_loop, wait_loop_step.
    change (poll E event_id poll_interval_s w0 0)
      with (reply E event_id (length (requests w0))).
    split; intros Hs.
    + by rewrite (proj2 (verdict_return _ _ _)
                    (ex_intro _ run (conj Hrun (conj Hs eq_refl)))).
    + by rewrite (proj2 (verdict_runtime_error _ _ _)
                    (ex_intro _ run (conj Hrun (conj Hs eq_refl)))).
Qed.

(** ** The polling scenario *)

(** C5. Two polls showing a first run with status ["Running"], then one
    showing status ["Completed"] with output
    [{"answer": "42", "sources": ["doc.pdf"]}]: with the default timeout and
    poll interval, and the first two polls answered within the timeout, the
    call returns that output and has made exactly three requests. *)
Theorem running_twice_then_completed E event_id fuel w0 run0 run1 run2 :
  let n := length (requests w0) in
  first_run (reply E event_id n) = Some run0 ->
  status_of run0 = PStr "Running" ->
  first_run (reply E event_id (n + 1)) = Some run1 ->
  status_of run1 = PStr "Running" ->
  first_run (reply E event_id (n + 2)) = Some run2 ->
  status_of run2 = PStr "Completed" ->
  run2 !! "output" = Some answer_42 ->
  (latency E n <= 120)%Q ->
  (latency E n + (1 # 2) + latency E (n + 1) <= 120)%Q ->
  (3 <= fuel)%nat ->
  exists w',
    wait_for_run_output E fuel event_id default_timeout_s default_poll_interval_s w0
      = (Return answer_42, w') /\
    requests w' = requests w0 ++ replicate 3 (runs_url E event_id).
Proof.
  intros n Hrun0 Hst0 Hrun1 Hst1 Hrun2 Hst2 Hout Hlat0 Hlat1 Hfuel.
  exists (after_get E event_id
            (before_poll E event_id default_poll_interval_s w0 2)).
  split; [|apply requests_after_poll].
  rewrite wait_for_run_output_loop.
  replace fuel with (2 + S (fuel - 3))%nat by lia.
  rewrite wait_loop_reach.
  - rewrite poll_index. fold n.
    assert (is_success (status_of run2) = true) as Hs by by rewrite Hst2.
    rewrite (proj2 (verdict_return _ _ _)
               (ex_intro _ run2 (conj Hrun2 (conj Hs eq_refl)))).
    unfold output_of. by rewrite Hout.
  - split; [right; by vm_compute|].
    intros [|[|j]] Hj; [| |lia]; rewrite poll_index; fold n.
    + split.
      * rewrite Nat.add_0_r. apply (pending_first_run _ run0); [done | by rewrite Hst0].
      * rewrite check_time_0. fold n. unfold default_timeout_s. lra.
    + split.
      * apply (pending_first_run _ run1); [done | by rewrite Hst1].
      * rewrite check_time_S, check_time_0.
        cbn [next_poll now set_now after_get log_request requests].
        rewrite length_app. cbn [length]. fold n.
        unfold default_timeout_s, default_poll_interval_s. lra.
Qed.

(** ** Replies without the data key *)

Lemma wait_loop_fill_data E event_id timeout_s poll_interval_s fuel :
  forall start last_status w,
  wait_loop (default_data_env E) fuel event_id timeout_s poll_interval_s start last_status w =
  wait_loop E fuel event_id timeout_s poll_interval_s start last_status w.
Proof.
  induction fuel as [|fuel IH]; intros start last_status w; [reflexivity|].
  rewrite !wait_loop_step.
  change (poll (default_data_env E) event_id poll_interval_s w 0)
    with (fill_data (poll E event_id poll_interval_s w 0)).
  rewrite verdict_fill_data.
  destruct (verdict_of _ _); try reflexivity.
  change (check_time (default_data_env E) event_id poll_interval_s w 0)
    with (check_time E event_id poll_interval_s w 0).
  destruct (Qgtb _ timeout_s); [reflexivity|].
  destruct (Qgtb 0 poll_interval_s); [reflexivity|]. apply IH.
Qed.

Lemma fetch_runs_missing_data E event_id w resp d :
  reply E event_id (length (requests w)) = Some resp ->
  response_ok resp = true ->
  json_body resp = Some (PDict d) ->
  d !! "data" = None ->
  fetch_runs E event_id w = (Return (PList []), after_get E event_id w).
Proof.
  unfold reply, response_ok. intros Hreply Hok Hbody Hdata.
  apply negb_true_iff in Hok.
  unfold fetch_runs, requests_get, raise_for_status, resp_json, py_get, bind, ret.
  by rewrite Hreply, Hok, Hbody, Hdata.
Qed.

(** C10. An ok response whose JSON object has no ["data"] key makes
    [fetch_runs] return the empty list, and the poller cannot tell such a
    response from one that carries ["data": []]: against the server that
    fills the key in, [wait_for_run_output] gives the same outcome in the
    same world. *)
Theorem missing_data_key_is_empty_run_list :
  (forall E event_id w resp d,
     reply E event_id (length (requests w)) = Some resp ->
     response_ok resp = true ->
     json_body resp = Some (PDict d) ->
     d !! "data" = None ->
     fetch_runs E event_id w = (Return (PList []), after_get E event_id w)) /\
  (forall E fuel event_id timeout_s poll_interval_s w,
     wait_for_run_output E fuel event_id timeout_s poll_interval_s w =
     wait_for_run_output (default_data_env E) fuel event_id timeout_s poll_interval_s w).
Proof.
  split; [apply fetch_runs_missing_data|].
  intros. rewrite !wait_for_run_output_loop. symmetry. apply wait_loop_fill_data.
Qed.


(** ** The file sink *)

Lemma split_slash_simple s : has_slash s = false -> split_slash s = [s].
Proof.
  induction s as [|c s IH]; [done|]. cbn [has_slash split_slash].
  intros [Hc Hs]%orb_false_iff. by rewrite Hc, IH.
Qed.

Lemma anchor_of_simple s : has_slash s = false -> anchor_of s = Rel.
Proof.
  destruct s as [|c1 [|c2 [|c3 s]]]; cbn [has_slash anchor_of]; [done|..];
    intros [-> _]%orb_false_iff; done.
Qed.

Lemma simple_name_spec s :
  simple_name s = true ->
  s <> "" /\ s <> "." /\ s <> ".." /\ has_slash s = false.
Proof.
  unfold simple_name. rewrite !andb_true_iff, !negb_true_iff, !String.eqb_neq.
  tauto.
Qed.

Lemma path_of_string_simple s :
  simple_name s = true -> path_of_string s = {| path_anchor := Rel; path_parts := [s] |}.
Proof.
  intros (Hne & Hdot & _ & Hslash)%simple_name_spec. unfold path_of_string.
  rewrite anchor_of_simple, split_slash_simple by done. cbn [List.filter].
  unfold keep_part.
  apply String.eqb_neq in Hne, Hdot. by rewrite Hne, Hdot.
Qed.

Lemma path_of_string_component s :
  s <> "" -> s <> "." -> has_slash s = false ->
  path_of_string s = {| path_anchor := Rel; path_parts := [s] |}.
Proof.
  intros Hne Hdot Hslash. unfold path_of_string.
  rewrite anchor_of_simple, split_slash_simple by done. cbn [List.filter].
  unfold keep_part.
  apply String.eqb_neq in Hne, Hdot. by rewrite Hne, Hdot.
Qed.

Lemma uploads_file_path s :
  simple_name s = true ->
  path_join (path_of_string "uploads") s
    = {| path_anchor := Rel; path_parts := ["uploads"; s] |}.
Proof.
  intros Hs. unfold path_join. by rewrite path_of_string_simple.
Qed.

Lemma node_at_nonempty fs p : p <> [] -> node_at fs p = fs !! p.
Proof. by destruct p. Qed.

Lemma node_at_insert_ne fs p q n :
  p <> q -> node_at (<[p := n]> fs) q = node_at fs q.
Proof. intros Hne. destruct q; [done|]. cbn. by rewrite lookup_insert_ne. Qed.

Lemma node_at_insert_eq fs p n : p <> [] -> node_at (<[p := n]> fs) p = Some n.
Proof. intros Hne. destruct p; [done|]. cbn. by rewrite lookup_insert_eq. Qed.

Lemma has_nul_app a b : has_nul (a ++ b)%string = has_nul a || has_nul b.
Proof.
  induction a as [|c a IH]; [done|].
  change (String c a ++ b)%string with (String c (a ++ b)%string).
  cbn [has_nul]. by rewrite IH, orb_assoc.
Qed.

Lemma utf8_length_app a b :
  utf8_length (a ++ b)%string = (utf8_length a + utf8_length b)%nat.
Proof.
  induction a as [|c a IH]; [done|].
  change (String c a ++ b)%string with (String c (a ++ b)%string).
  cbn [utf8_length]. rewrite IH. lia.
Qed.

Lemma simple_name_os s :
  simple_name s = true ->
  has_nul s = false /\ name_too_long s = false /\ (utf8_length s <= 255)%nat.
Proof.
  unfold simple_name. rewrite !andb_true_iff, !negb_true_iff.
  intros [[_ Hnul] Hlong]. do 2 (split; [done|]).
  unfold name_too_long, NAME_MAX in Hlong. by apply Nat.ltb_ge in Hlong.
Qed.

(** A short prefix before an acceptable name makes an acceptable path. *)
Lemma path_refused_prefixed prefix name :
  has_nul prefix = false ->
  (utf8_length prefix <= 100)%nat ->
  simple_name name = true ->
  path_refused (prefix ++ name)%string = None.
Proof.
  intros Hnul Hlen (Hnul' & _ & Hlen')%simple_name_os. unfold path_refused.
  rewrite has_nul_app, Hnul, Hnul', utf8_length_app. cbn [orb].
  assert ((PATH_MAX <=? utf8_length prefix + utf8_length name)%nat = false) as ->;
    [|done].
  apply Nat.leb_gt. unfold PATH_MAX. lia.
Qed.

Lemma walk_nil fs cur : node_at fs cur = Some Dir -> walk fs cur [] = inr cur.
Proof. intros Hcur. cbn [walk]. by rewrite Hcur. Qed.

Lemma walk_cons fs cur c rest :
  node_at fs cur = Some Dir ->
  name_too_long c = false ->
  walk fs cur (c :: rest) = walk fs (enter cur c) rest.
Proof. intros Hcur Hc. cbn [walk]. by rewrite Hcur, Hc. Qed.

(** What [open(p, "wb")] and the write come to once the directories of [p]
    have been walked. *)
Lemma path_write_bytes_open E p data w dirs leaf d :
  path_parts p = dirs ++ [leaf] ->
  path_refused (path_str p) = None ->
  walk (files w) (start_dir E p) dirs = inr d ->
  leaf <> ".." ->
  path_write_bytes E p data w =
  if name_too_long leaf then (Raise (OSError ENAMETOOLONG), w)
  else match node_at (files w) (d ++ [leaf]) with
       | Some Dir => (Raise IsADirectoryError, w)
       | _ => (Return (length data),
               set_files (<[d ++ [leaf] := File data]> (files w)) w)
       end.
Proof.
  intros Hparts Hok Hwalk Hleaf. unfold path_write_bytes.
  rewrite Hok, Hparts, removelast_last, last_last, Hwalk.
  apply String.eqb_neq in Hleaf. rewrite Hleaf.
  by destruct (dirs ++ [leaf]) eqn:Heq; [destruct dirs|].
Qed.

(** [Path("uploads").mkdir(parents=True, exist_ok=True)] in an existing
    working directory. *)
Lemma path_mkdir_uploads E w :
  node_at (files w) (cwd E) = Some Dir ->
  path_mkdir E (path_of_string "uploads") w =
  match files w !! (cwd E ++ ["uploads"]) with
  | Some Dir => (Return tt, set_files (files w) w)
  | Some (File _) => (Raise FileExistsError, w)
  | None => (Return tt, set_files (<[cwd E ++ ["uploads"] := Dir]> (files w)) w)
  end.
Proof.
  intros Hcwd. unfold path_mkdir.
  change (path_refused (path_str (path_of_string "uploads"))) with (@None exn).
  change (start_dir E (path_of_string "uploads")) with (cwd E).
  change (path_parts (path_of_string "uploads")) with ["uploads"].
  rewrite walk_nil by done. cbn [make_dirs].
  change (name_too_long "uploads") with false. cbn iota.
  change (enter (cwd E) "uploads") with (cwd E ++ ["uploads"]).
  rewrite node_at_nonempty by (by destruct (cwd E)).
  by destruct (files w !! (cwd E ++ ["uploads"])) as [[|content]|].
Qed.

Lemma path_mkdir_uploads_ok E w :
  node_at (files w) (cwd E) = Some Dir ->
  (files w !! (cwd E ++ ["uploads"]) = None \/
   files w !! (cwd E ++ ["uploads"]) = Some Dir) ->
  path_mkdir E (path_of_string "uploads") w
    = (Return tt, set_files (<[cwd E ++ ["uploads"] := Dir]> (files w)) w).
Proof.
  intros Hcwd Huploads. rewrite path_mkdir_uploads by done.
  destruct Huploads as [->| Hdir]; [done|]. rewrite Hdir.
  by rewrite insert_id.
Qed.

Lemma uploads_not_cwd (cwd : list string) : cwd ++ ["uploads"] <> cwd.
Proof.
  intros Heq. apply (f_equal length) in Heq. rewrite length_app in Heq.
  cbn in Heq. lia.
Qed.

(** The directory in which the file is opened, once [uploads] exists. *)
Lemma walk_into_uploads E fs :
  node_at fs (cwd E) = Some Dir ->
  walk (<[cwd E ++ ["uploads"] := Dir]> fs) (cwd E) ["uploads"]
    = inr (cwd E ++ ["uploads"]).
Proof.
  intros Hcwd.
  rewrite walk_cons; [|by rewrite node_at_insert_ne by apply uploads_not_cwd|done].
  change (enter (cwd E) "uploads") with (cwd E ++ ["uploads"]).
  apply walk_nil. apply node_at_insert_eq. by destruct (cwd E).
Qed.

(** Saving under a simple name, in full. *)
Lemma save_uploaded_pdf_simple E file w :
  simple_name (file_name file) = true ->
  node_at (files w) (cwd E) = Some Dir ->
  (files w !! (cwd E ++ ["uploads"]) = None \/
   files w !! (cwd E ++ ["uploads"]) = Some Dir) ->
  files w !! (cwd E ++ ["uploads"; file_name file]) <> Some Dir ->
  save_uploaded_pdf E file w
    = (Return {| path_anchor := Rel; path_parts := ["uploads"; file_name file] |},
       set_files (<[cwd E ++ ["uploads"; file_name file] := File (getbuffer file)]>
                    (<[cwd E ++ ["uploads"] := Dir]> (files w))) w).
Proof.
  intros Hname Hcwd Huploads Htarget.
  pose proof (simple_name_spec _ Hname) as (Hne & Hdot & Hdotdot & Hslash).
  pose proof (simple_name_os _ Hname) as (_ & Hlong & _).
  set (uploads := cwd E ++ ["uploads"]) in *.
  assert ((cwd E ++ ["uploads"; file_name file]) = uploads ++ [file_name file]) as Ht.
  { unfold uploads. by rewrite <- app_assoc. }
  assert (uploads <> uploads ++ [file_name file]) as Hut.
  { intros Heq. apply (f_equal length) in Heq. rewrite length_app in Heq.
    cbn in Heq. lia. }
  unfold save_uploaded_pdf. rewrite uploads_file_path by done.
  unfold bind. rewrite path_mkdir_uploads_ok by done. fold uploads.
  rewrite (path_write_bytes_open E _ _ _ ["uploads"] (file_name file) uploads);
    [|done| |by apply walk_into_uploads|done].
  2:{ change (path_str {| path_anchor := Rel;
                          path_parts := ["uploads"; file_name file] |})
        with ("uploads/" ++ file_name file)%string.
      apply path_refused_prefixed; [reflexivity | vm_compute; lia | done]. }
  rewrite Hlong. cbn [files set_files]. rewrite Ht in *.
  rewrite node_at_insert_ne by done.
  rewrite node_at_nonempty by (unfold uploads; by destruct (cwd E)).
  by destruct (files w !! (uploads ++ [file_name file])) as [[|content]|].
Qed.

(** C4, as amended. For an uploaded file whose name is a single path
    component the operating system accepts ([simple_name]: no slash, no
    NUL, at most 255 bytes), in a working directory that exists, where
    [uploads] is absent or a directory and the target is not a directory:
    [save_uploaded_pdf]
    leaves [uploads] a directory, leaves the target a file holding exactly
    the uploaded bytes (whatever was there before), touches nothing else,
    and returns the relative path [uploads/<name>]; resolving that path
    gives the absolute path of the written file. *)
Theorem save_uploaded_pdf_writes_under_uploads E file w :
  let uploads := cwd E ++ ["uploads"] in
  let target := cwd E ++ ["uploads"; file_name file] in
  simple_name (file_name file) = true ->
  node_at (files w) (cwd E) = Some Dir ->
  (files w !! uploads = None \/ files w !! uploads = Some Dir) ->
  files w !! target <> Some Dir ->
  exists w',
    save_uploaded_pdf E file w
      = (Return {| path_anchor := Rel; path_parts := ["uploads"; file_name file] |}, w') /\
    files w' !! uploads = Some Dir /\
    files w' !! target = Some (File (getbuffer file)) /\
    (forall p, p <> uploads -> p <> target -> files w' !! p = files w !! p) /\
    now w' = now w /\ requests w' = requests w /\ sent w' = sent w /\
    path_resolve E {| path_anchor := Rel; path_parts := ["uploads"; file_name file] |}
      = {| path_anchor := Abs; path_parts := target |}.
Proof.
  intros uploads target Hname Hcwd Huploads Htarget.
  pose proof (simple_name_spec _ Hname) as (Hne & Hdot & Hdotdot & Hslash).
  assert (uploads <> target) as Hut.
  { unfold uploads, target. intros Heq. apply (f_equal length) in Heq.
    rewrite !length_app in Heq. cbn in Heq. lia. }
  eexists. split; [by apply save_uploaded_pdf_simple|].
  fold uploads target. cbn [files set_files now requests sent].
  split; [by rewrite lookup_insert_ne, lookup_insert_eq|].
  split; [by rewrite lookup_insert_eq|].
  split; [intros p Hp1 Hp2; by rewrite !lookup_insert_ne|].
  do 3 (split; [done|]).
  unfold path_resolve, start_dir. cbn [path_anchor path_parts fold_left].
  unfold enter. cbn [String.eqb Ascii.eqb Bool.eqb].
  apply String.eqb_neq in Hdotdot. rewrite Hdotdot.
  unfold target. by rewrite <- app_assoc.
Qed.

(** ** The event dispatcher *)

(** C8. [send_rag_query_event] submits one ["rag/query_pdf_ai"] event and
    returns the first identifier the client acknowledges; a failure of the
    submission is raised as it is, and an empty acknowledgement raises
    [IndexError]. *)
Theorem send_rag_query_event_first_id E question top_k w :
  let ev := {| event_name := "rag/query_pdf_ai";
               event_data := {[ "question" := PStr question; "top_k" := PInt top_k ]} |} in
  (forall id rest,
     inngest E (length (sent w)) ev = inr (id :: rest) ->
     send_rag_query_event E question top_k w = (Return id, log_event ev w)) /\
  (forall reason,
     inngest E (length (sent w)) ev = inl reason ->
     send_rag_query_event E question top_k w = (Raise (SendError reason), log_event ev w)) /\
  (inngest E (length (sent w)) ev = inr [] ->
   send_rag_query_event E question top_k w = (Raise IndexError, log_event ev w)).
Proof.
  intros ev. unfold send_rag_query_event, client_send, bind. fold ev.
  split; [|split].
  - intros id rest ->. reflexivity.
  - intros reason ->. reflexivity.
  - intros ->. reflexivity.
Qed.

(** ** The query form *)

(** The poller only ever adds requests for its event to the world. *)
Lemma wait_loop_frame E event_id timeout_s poll_interval_s fuel :
  forall start last_status w,
  let w' := snd (wait_loop E fuel event_id timeout_s poll_interval_s start last_status w) in
  sent w' = sent w /\ files w' = files w /\
  exists m, requests w' = requests w ++ replicate m (runs_url E event_id).
Proof.
  induction fuel as [|fuel IH]; intros start last_status w.
  { cbn. do 2 (split; [done|]). exists 0%nat. cbn. by rewrite app_nil_r. }
  cbn zeta. rewrite wait_loop_step.
  assert (sent (after_get E event_id w) = sent w /\
          files (after_get E event_id w) = files w /\
          exists m, requests (after_get E event_id w)
                    = requests w ++ replicate m (runs_url E event_id)) as Hone.
  { do 2 (split; [done|]). by exists 1%nat. }
  destruct (verdict_of _ _); [done|done|].
  destruct (Qgtb _ timeout_s); [done|].
  destruct (Qgtb 0 poll_interval_s); [done|].
  destruct (IH start last_status0 (next_poll E event_id poll_interval_s w))
    as (Hs & Hf & m & Hm).
  rewrite Hs, Hf, Hm. do 2 (split; [done|]).
  exists (S m). cbn [next_poll after_get set_now log_request requests replicate].
  by rewrite <- app_assoc.
Qed.

Lemma truthy_str s : truthy (PStr s) = true <-> s <> "".
Proof. cbn. rewrite negb_true_iff. apply String.eqb_neq. Qed.

(** C6, as amended. A submitted form whose question is not blank
    dispatches exactly one ["rag/query_pdf_ai"] event, carrying the question
    with its leading and trailing whitespace stripped and the entered
    [top_k]; the poller is then given the first acknowledged event id (every
    request it makes is for that event's runs). A form that is not
    submitted, or whose question is blank, dispatches nothing. *)
Theorem query_form_dispatches_stripped_question E fuel f w :
  let q := py_strip (question f) in
  let ev := {| event_name := "rag/query_pdf_ai";
               event_data := {[ "question" := PStr q; "top_k" := PInt (top_k f) ]} |} in
  (submitted f = true -> q <> "" ->
   sent (snd (rag_query_form E fuel f w)) = sent w ++ [ev] /\
   forall id rest,
     inngest E (length (sent w)) ev = inr (id :: rest) ->
     exists m, requests (snd (rag_query_form E fuel f w))
               = requests w ++ replicate m (runs_url E id)) /\
  (submitted f = false \/ q = "" ->
   rag_query_form E fuel f w = (Return None, w)).
Proof.
  intros q ev. split.
  - intros Hsub Hq. apply truthy_str in Hq. unfold rag_query_form.
    fold q. rewrite Hsub, Hq. cbn [andb].
    unfold send_rag_query_event, client_send, wait_for_run_output, time_time,
      py_get, bind, ret, raise. fold ev.
    destruct (inngest E (length (sent w)) ev) as [reason|[|id rest]] eqn:Hack;
      cbn beta iota.
    + split; [done | intros ? ? [=]].
    + split; [done | intros ? ? [=]].
    + pose proof (wait_loop_frame E id default_timeout_s default_poll_interval_s fuel
                    (now (log_event ev w)) PNone (log_event ev w)) as Hframe.
      cbn zeta in Hframe. destruct Hframe as (Hs & _ & m & Hm).
      destruct (wait_loop _ _ _ _ _ _ _ _) as [[out| |] w1]; cbn [snd] in *.
      * destruct out; cbn [snd];
          (split; [done|]; intros id' rest' [= <- <-]; by exists m).
      * split; [done|]. intros id' rest' [= <- <-]. by exists m.
      * split; [done|]. intros id' rest' [= <- <-]. by exists m.
  - intros Hno. unfold rag_query_form. fold q.
    destruct Hno as [->| ->]; [done|]. by rewrite andb_false_r.
Qed.

(** ** The theorems above on the scripted servers *)


Lemma wait_returns_iff_first_success_witness :
  exists w',
    wait_for_run_output env_completes_third 5 "evt_1" 120 (1 # 2) fresh_world
      = (Return answer_42, w').
Proof.
  eexists.
  apply (wait_returns_iff_first_success env_completes_third "evt_1" 120 (1 # 2)).
  exists 2%nat, {[ "status" := PStr "Completed"; "output" := answer_42 ]}.
  split; [lia|]. split.
  { split; [right; by vm_compute|].
    intros [|[|j]] Hj; [split; by vm_compute | split; by vm_compute | lia]. }
  split; [by vm_compute|]. split.
  { exists "Completed". split; [by vm_compute | set_solver]. }
  split; [by vm_compute | reflexivity].
Defined.

Lemma wait_raises_run_failed_iff_witness :
  exists w',
    wait_for_run_output env_fails_second 5 "evt_1" 120 (1 # 2) fresh_world
      = (Raise (RuntimeError (PStr "Failed")), w').
Proof.
  eexists.
  apply (wait_raises_run_failed_iff env_fails_second "evt_1" 120 (1 # 2)).
  exists 1%nat, {[ "status" := PStr "Failed"; "output" := PNone ]}.
  split; [lia|]. split.
  { split; [right; by vm_compute|].
    intros [|j] Hj; [split; by vm_compute | lia]. }
  split; [by vm_compute|]. split; [by vm_compute|]. split.
  { exists "Failed". split; [done|]. split; [set_solver | done]. }
  split; [reflexivity | by vm_compute].
Defined.

Lemma http_error_aborts_wait_witness :
  wait_for_run_output env_unavailable 5 "evt_1" 120 (1 # 2) fresh_world
    = (Raise (HTTPError 503),
       after_get env_unavailable "evt_1"
         (before_poll env_unavailable "evt_1" (1 # 2) fresh_world 1)) /\
  requests (after_get env_unavailable "evt_1"
              (before_poll env_unavailable "evt_1" (1 # 2) fresh_world 1))
    = replicate 2 (runs_url env_unavailable "evt_1").
Proof.
  refine (proj2 (http_error_aborts_wait env_unavailable "evt_1" 120 (1 # 2) 5 1
            fresh_world {| status_code := 503; json_body := None |} _ _ _ _)).
  - lia.
  - split; [right; by vm_compute|].
    intros [|j] Hj; [split; by vm_compute | lia].
  - by vm_compute.
  - cbn. lia.
Defined.

(** C7, as first stated, fails: a status outside the success class need not
    raise. A 300 response goes through [raise_for_status]: its run list is
    fetched and the wait returns the output; a 304 without a body fails in
    [resp.json()], not with an [HTTPError]. *)
Lemma redirection_status_raises_no_http_error :
  fst (fetch_runs env_multiple_choices "evt_1" fresh_world)
    = Return (PList [run_with "Completed" answer_42]) /\
  fst (wait_for_run_output env_multiple_choices 1 "evt_1" 120 (1 # 2) fresh_world)
    = Return answer_42 /\
  fst (wait_for_run_output env_multiple_choices 1 "evt_1" 120 (1 # 2) fresh_world)
    <> Raise (HTTPError 300) /\
  fst (wait_for_run_output env_not_modified 1 "evt_1" 120 (1 # 2) fresh_world)
    = Raise JSONDecodeError.
Proof.
  split; [by vm_compute|]. split; [by vm_compute|]. split; by vm_compute.
Qed.

(** C2, as first stated, fails: with no run on any poll, a timeout of 1 s
    and an interval of 0.5 s, the [TimeoutError] carries [None] and its
    message reads [last status: None]; the status ["unknown"] is not what it
    carries. *)
Lemma timeout_status_is_None_not_unknown :
  fst (wait_for_run_output env_never_runs 4 "evt_1" 1 (1 # 2) fresh_world)
    = Raise (TimeoutError PNone) /\
  fst (wait_for_run_output env_never_runs 4 "evt_1" 1 (1 # 2) fresh_world)
    <> Raise (TimeoutError (PStr "unknown")) /\
  exn_message (TimeoutError PNone)
    = Some "Timed out waiting for run output (last status: None)" /\
  exn_message (TimeoutError PNone)
    <> Some "Timed out waiting for run output (last status: unknown)".
Proof.
  split; [by vm_compute|]. split; [by vm_compute|]. split; [reflexivity | by vm_compute].
Qed.

Lemma timeout_carries_last_truthy_status_witness :
  (exists w',
     wait_for_run_output env_never_runs 4 "evt_1" 1 (1 # 2) fresh_world
       = (Raise (TimeoutError PNone), w')) /\
  (exists k status,
     wait_for_run_output env_stalls 10 "evt_1" 1 (1 # 2) fresh_world
       = (Raise (TimeoutError status),
          after_get env_stalls "evt_1"
            (before_poll env_stalls "evt_1" (1 # 2) fresh_world k)) /\
     status = PStr "Running").
Proof.
  split.
  - apply (proj2 (proj2 timeout_carries_last_truthy_status)).
    + intros n. unfold reply. cbn. by destruct n.
    + intros n. by vm_compute.
    + lia.
  - destruct (proj1 timeout_carries_last_truthy_status
                env_stalls "evt_1" 1%Q (1 # 2) 10%nat 3%nat fresh_world)
      as (k & status & _ & _ & _ & Hwait & Hlatest & _).
    + lia.
    + by vm_compute.
    + intros [|[|[|[|j]]]] Hj; try (by vm_compute); lia.
    + by vm_compute.
    + exists k, status. split; [exact Hwait|].
      apply (Hlatest 0%nat); [lia | by vm_compute |].
      intros i Hi. unfold poll. rewrite requests_before_poll.
      destruct i as [|i]; [lia|]. cbn. by destruct i.
Defined.

Lemma timeout_only_after_a_fetch_and_strictly_late_witness :
  wait_for_run_output env_completes_first 1 "evt_1" 0 (1 # 2) fresh_world
    = (Return answer_42, after_get env_completes_first "evt_1" fresh_world) /\
  ((length (requests fresh_world)
    < length (requests (snd (wait_for_run_output env_never_runs 4 "evt_1" 1 (1 # 2)
                               fresh_world))))%nat /\
   (1 < now (snd (wait_for_run_output env_never_runs 4 "evt_1" 1 (1 # 2) fresh_world))
        - now fresh_world)%Q).
Proof.
  split.
  - refine (proj1 (proj2 timeout_only_after_a_fetch_and_strictly_late
              env_completes_first "evt_1" (1 # 2) 0%nat fresh_world
              {[ "status" := PStr "Completed"; "output" := answer_42 ]} _) _);
      by vm_compute.
  - refine (proj1 timeout_only_after_a_fetch_and_strictly_late
              env_never_runs "evt_1" 1%Q (1 # 2) 4%nat fresh_world PNone _ _).
    by vm_compute.
Defined.

Lemma running_twice_then_completed_witness :
  exists w',
    wait_for_run_output env_completes_third 3 "evt_1" 120 (1 # 2) fresh_world
      = (Return answer_42, w') /\
    requests w' = replicate 3 (runs_url env_completes_third "evt_1").
Proof.
  refine (running_twice_then_completed env_completes_third "evt_1" 3 fresh_world
            {[ "status" := PStr "Running"; "output" := PNone ]}
            {[ "status" := PStr "Running"; "output" := PNone ]}
            {[ "status" := PStr "Completed"; "output" := answer_42 ]}
            _ _ _ _ _ _ _ _ _ _); try (by vm_compute); lia.
Defined.

Lemma missing_data_key_is_empty_run_list_witness :
  fetch_runs
    (scripted_env [] (Some {| status_code := 200; json_body := Some (PDict ∅) |})
       0 (inr []))
    "evt_1" fresh_world
  = (Return (PList []),
     after_get
       (scripted_env [] (Some {| status_code := 200; json_body := Some (PDict ∅) |})
          0 (inr []))
       "evt_1" fresh_world).
Proof.
  refine (proj1 missing_data_key_is_empty_run_list _ "evt_1" fresh_world
            {| status_code := 200; json_body := Some (PDict ∅) |} ∅ _ _ _ _);
    by vm_compute.
Defined.

(** C4, as first stated, fails: for [doc.pdf] the path returned is the
    relative [uploads/doc.pdf], not its resolution
    [/srv/app/uploads/doc.pdf]. *)
Lemma save_uploaded_pdf_returns_relative_path :
  fst (save_uploaded_pdf env_never_runs report_pdf fresh_world)
    = Return {| path_anchor := Rel; path_parts := ["uploads"; "doc.pdf"] |} /\
  fst (save_uploaded_pdf env_never_runs report_pdf fresh_world)
    <> Return (path_resolve env_never_runs
                 (path_join (path_of_string "uploads") (file_name report_pdf))) /\
  path_str (path_resolve env_never_runs
              (path_join (path_of_string "uploads") (file_name report_pdf)))
    = "/srv/app/uploads/doc.pdf" /\
  path_str {| path_anchor := Rel; path_parts := ["uploads"; "doc.pdf"] |}
    = "uploads/doc.pdf".
Proof.
  split; [by vm_compute|]. split; [by vm_compute|]. split; by vm_compute.
Qed.

Lemma save_uploaded_pdf_writes_under_uploads_witness :
  exists w',
    save_uploaded_pdf env_never_runs report_pdf fresh_world
      = (Return {| path_anchor := Rel; path_parts := ["uploads"; "doc.pdf"] |}, w') /\
    files w' !! ["srv"; "app"; "uploads"; "doc.pdf"]
      = Some (File [Byte.x25; Byte.x50; Byte.x44; Byte.x46]).
Proof.
  destruct (save_uploaded_pdf_writes_under_uploads env_never_runs report_pdf fresh_world)
    as (w' & Hsave & _ & Hfile & _).
  - by vm_compute.
  - by vm_compute.
  - left. by vm_compute.
  - by vm_compute.
  - exists w'. split; [exact Hsave | exact Hfile].
Defined.

Lemma send_rag_query_event_first_id_witness :
  fst (send_rag_query_event
         (scripted_env [] None 0 (inr ["evt_1"; "evt_2"])) "What is RAG?" 5 fresh_world)
    = Return "evt_1" /\
  fst (send_rag_query_event
         (scripted_env [] None 0 (inl "connection refused")) "What is RAG?" 5 fresh_world)
    = Raise (SendError "connection refused") /\
  fst (send_rag_query_event
         (scripted_env [] None 0 (inr [])) "What is RAG?" 5 fresh_world)
    = Raise IndexError.
Proof.
  split; [|split].
  - rewrite (proj1 (send_rag_query_event_first_id
                      (scripted_env [] None 0 (inr ["evt_1"; "evt_2"]))
                      "What is RAG?" 5 fresh_world) "evt_1" ["evt_2"]);
      reflexivity.
  - rewrite (proj1 (proj2 (send_rag_query_event_first_id
                      (scripted_env [] None 0 (inl "connection refused"))
                      "What is RAG?" 5 fresh_world)) "connection refused");
      reflexivity.
  - rewrite (proj2 (proj2 (send_rag_query_event_first_id
                      (scripted_env [] None 0 (inr []))
                      "What is RAG?" 5 fresh_world)));
      reflexivity.
Defined.

(** C6, as first stated, fails: a question entered with blanks around it
    is dispatched without them. *)
Lemma query_form_strips_the_question :
  sent (snd (rag_query_form env_completes_third 5 padded_form fresh_world))
    = [{| event_name := "rag/query_pdf_ai";
          event_data := {[ "question" := PStr "What is RAG?"; "top_k" := PInt 5 ]} |}] /\
  sent (snd (rag_query_form env_completes_third 5 padded_form fresh_world))
    <> [{| event_name := "rag/query_pdf_ai";
           event_data := {[ "question" := PStr (question padded_form);
                            "top_k" := PInt (top_k padded_form) ]} |}].
Proof.
  split; [by vm_compute|].
  intros Heq.
  apply (f_equal (fun l => match l with
                           | e :: _ => event_data e !! "question"
                           | [] => None
                           end)) in Heq.
  vm_compute in Heq. discriminate Heq.
Qed.

Lemma query_form_dispatches_stripped_question_witness :
  sent (snd (rag_query_form env_completes_third 5 padded_form fresh_world))
    = [{| event_name := "rag/query_pdf_ai";
          event_data := {[ "question" := PStr "What is RAG?"; "top_k" := PInt 5 ]} |}] /\
  rag_query_form env_completes_third 5
    {| question := "What is RAG?"; top_k := 5; submitted := false |} fresh_world
    = (Return None, fresh_world).
Proof.
  split.
  - refine (proj1 (proj1 (query_form_dispatches_stripped_question
                            env_completes_third 5 padded_form fresh_world) _ _)).
    + reflexivity.
    + by vm_compute.
  - apply (proj2 (query_form_dispatches_stripped_question env_completes_third 5
                    {| question := "What is RAG?"; top_k := 5; submitted := false |}
                    fresh_world)).
    left. reflexivity.
Defined.

(** ** The script at work *)

Example strip_keeps_inner_whitespace : py_strip "  hi there  " = "hi there".
Proof. reflexivity. Qed.

Example blank_question_dispatches_nothing :
  rag_query_form env_completes_third 5
    {| question := "   "; top_k := 5; submitted := true |} fresh_world
  = (Return None, fresh_world).
Proof. reflexivity. Qed.

Example query_form_shows_answer :
  fst (rag_query_form env_completes_third 5 padded_form fresh_world)
  = Return (Some (PStr "42", PList [PStr "doc.pdf"])).
Proof. by vm_compute. Qed.

Example timeout_reports_latest_status :
  fst (wait_for_run_output env_stalls 10 "evt_1" 1 (1 # 2) fresh_world)
  = Raise (TimeoutError (PStr "Running")).
Proof. by vm_compute. Qed.

Example message_of_an_integer_status :
  exn_message (TimeoutError (PInt (-12)))
  = Some "Timed out waiting for run output (last status: -12)".
Proof. by vm_compute. Qed.

Example absolute_name_escapes_uploads :
  path_join (path_of_string "uploads") "/etc/passwd"
  = {| path_anchor := Abs; path_parts := ["etc"; "passwd"] |}.
Proof. reflexivity. Qed.

Example upload_panel_sends_resolved_path :
  sent (snd (upload_panel env_never_runs (Some report_pdf) fresh_world))
  = [{| event_name := "rag/ingest_pdf";
        event_data := {[ "pdf_path" := PStr "/srv/app/uploads/doc.pdf";
                         "source_id" := PStr "doc.pdf" ]} |}].
Proof. by vm_compute. Qed.

(** * Further properties of the script *)

(** ** The file sink and the upload panel *)

Section SinkFacts.

Variable E : environment.

(** X1. Uploading a second file under the same name (a [simple_name])
    succeeds, returns the same path, and leaves the file system exactly as
    if only the second file had been uploaded: the target holds the second
    file's bytes. *)
Theorem save_again_last_write_wins f1 f2 w :
  simple_name (file_name f1) = true ->
  file_name f2 = file_name f1 ->
  node_at (files w) (cwd E) = Some Dir ->
  (files w !! (cwd E ++ ["uploads"]) = None \/
   files w !! (cwd E ++ ["uploads"]) = Some Dir) ->
  files w !! (cwd E ++ ["uploads"; file_name f1]) <> Some Dir ->
  exists p w1 w2,
    save_uploaded_pdf E f1 w = (Return p, w1) /\
    save_uploaded_pdf E f2 w1 = (Return p, w2) /\
    files w2 !! (cwd E ++ ["uploads"; file_name f1]) = Some (File (getbuffer f2)) /\
    files w2 = files (snd (save_uploaded_pdf E f2 w)).
Proof.
  intros Hname Hsame Hcwd Huploads Htarget.
  set (uploads := cwd E ++ ["uploads"]) in *.
  set (target := cwd E ++ ["uploads"; file_name f1]) in *.
  assert (uploads <> target) as Hut.
  { unfold uploads, target. intros Heq. apply (f_equal length) in Heq.
    rewrite !length_app in Heq. cbn in Heq. lia. }
  assert (uploads <> cwd E) as Huc.
  { unfold uploads. intros Heq. apply (f_equal length) in Heq.
    rewrite length_app in Heq. cbn in Heq. lia. }
  assert (target <> cwd E) as Htc.
  { unfold target. intros Heq. apply (f_equal length) in Heq.
    rewrite length_app in Heq. cbn in Heq. lia. }
  pose proof (save_uploaded_pdf_simple E f1 w Hname Hcwd Huploads Htarget) as H1.
  fold uploads target in H1.
  set (w1 := set_files (<[target := File (getbuffer f1)]> (<[uploads := Dir]> (files w))) w) in *.
  assert (simple_name (file_name f2) = true) as Hname2 by by rewrite Hsame.
  pose proof (save_uploaded_pdf_simple E f2 w1 Hname2) as H2.
  rewrite Hsame in H2. fold uploads target in H2.
  pose proof (save_uploaded_pdf_simple E f2 w Hname2) as H3.
  rewrite Hsame in H3. fold uploads target in H3.
  eexists _, w1, _. split; [exact H1|]. split.
  - apply H2.
    + cbn [w1 files set_files]. by rewrite !node_at_insert_ne.
    + right. cbn [w1 files set_files].
      by rewrite lookup_insert_ne, lookup_insert_eq.
    + cbn [w1 files set_files]. by rewrite lookup_insert_eq.
  - cbn [files set_files]. split; [by rewrite lookup_insert_eq|].
    rewrite H3 by done. cbn [snd files set_files w1].
    apply map_eq. intros p.
    destruct (decide (p = target)) as [->|Hpt]; [by rewrite !lookup_insert_eq|].
    rewrite !(lookup_insert_ne _ target) by done.
    destruct (decide (p = uploads)) as [->|Hpu]; [by rewrite !lookup_insert_eq|].
    by repeat (rewrite lookup_insert_ne by done).
Qed.

End SinkFacts.

Section UploadFacts.

Variable E : environment.

Lemma path_of_string_parent s :
  simple_name s = true ->
  path_of_string ("../" ++ s)%string
    = {| path_anchor := Rel; path_parts := [".."; s] |}.
Proof.
  intros (Hne & Hdot & _ & Hslash)%simple_name_spec. unfold path_of_string.
  change ("../" ++ s)%string with (String "." (String "." (String "/" s))).
  cbn [anchor_of split_slash Ascii.eqb Bool.eqb slash].
  rewrite (split_slash_simple s) by done.
  cbn [List.filter]. unfold keep_part at 1. cbn [String.eqb Ascii.eqb Bool.eqb negb andb].
  unfold keep_part. apply String.eqb_neq in Hne, Hdot.
  by rewrite Hne, Hdot.
Qed.

(** X2. The file name is not confined to the directory: for a name
    [../<name>] (with [<name>] a [simple_name]) the bytes are written to
    [<cwd>/<name>], next to [uploads] and not inside it, and the path
    returned is [uploads/../<name>]. *)
Theorem save_uploaded_pdf_follows_parent_segments file name w :
  file_name file = ("../" ++ name)%string ->
  simple_name name = true ->
  name <> "uploads" ->
  node_at (files w) (cwd E) = Some Dir ->
  (files w !! (cwd E ++ ["uploads"]) = None \/
   files w !! (cwd E ++ ["uploads"]) = Some Dir) ->
  files w !! (cwd E ++ [name]) <> Some Dir ->
  exists w',
    save_uploaded_pdf E file w
      = (Return {| path_anchor := Rel; path_parts := ["uploads"; ".."; name] |}, w') /\
    files w' !! (cwd E ++ [name]) = Some (File (getbuffer file)) /\
    files w' !! (cwd E ++ ["uploads"; name]) = files w !! (cwd E ++ ["uploads"; name]).
Proof.
  intros Hfile Hname Hnu Hcwd Huploads Htarget.
  set (uploads := cwd E ++ ["uploads"]) in *.
  set (target := cwd E ++ [name]) in *.
  pose proof (simple_name_spec _ Hname) as (Hne & Hdot & Hdotdot & Hslash).
  pose proof (simple_name_os _ Hname) as (_ & Hlong & _).
  assert (uploads <> target) as Hut.
  { unfold uploads, target. intros Heq. apply app_inv_head in Heq. congruence. }
  set (fs1 := <[uploads := Dir]> (files w)).
  assert (node_at fs1 (cwd E) = Some Dir) as Hcwd1.
  { unfold fs1. by rewrite node_at_insert_ne by apply uploads_not_cwd. }
  exists (set_files (<[target := File (getbuffer file)]> fs1) w).
  split.
  - unfold save_uploaded_pdf, path_join. rewrite Hfile, path_of_string_parent by done.
    cbn [path_anchor path_parts].
    change (path_parts (path_of_string "uploads") ++ [".."; name])
      with ["uploads"; ".."; name].
    change (path_anchor (path_of_string "uploads")) with Rel.
    unfold bind. rewrite path_mkdir_uploads_ok by done. fold uploads fs1.
    rewrite (path_write_bytes_open E _ _ _ ["uploads"; ".."] name (cwd E));
      [|done| | |done].
    + rewrite Hlong. cbn [files set_files]. fold target.
      assert (node_at fs1 target = files w !! target) as ->.
      { unfold fs1. rewrite node_at_insert_ne by done.
        apply node_at_nonempty. unfold target. by destruct (cwd E). }
      by destruct (files w !! target) as [[|content]|].
    + change (path_str {| path_anchor := Rel;
                          path_parts := ["uploads"; ".."; name] |})
        with ("uploads/../" ++ name)%string.
      apply path_refused_prefixed; [reflexivity | vm_compute; lia | done].
    + cbn [files set_files start_dir path_anchor].
      rewrite walk_cons by done.
      change (enter (cwd E) "uploads") with uploads.
      rewrite walk_cons; [|unfold fs1; apply node_at_insert_eq;
                            unfold uploads; by destruct (cwd E)|done].
      assert (enter uploads ".." = cwd E) as ->.
      { unfold enter, uploads. cbn [String.eqb Ascii.eqb Bool.eqb].
        apply removelast_last. }
      by apply walk_nil.
  - cbn [files set_files]. split; [by rewrite lookup_insert_eq|].
    assert (cwd E ++ ["uploads"; name] <> target) as Hne1.
    { unfold target. intros Heq. apply (f_equal length) in Heq.
      rewrite !length_app in Heq. cbn in Heq. lia. }
    assert (cwd E ++ ["uploads"; name] <> uploads) as Hne2.
    { unfold uploads. intros Heq. apply (f_equal length) in Heq.
      rewrite !length_app in Heq. cbn in Heq. lia. }
    unfold fs1. by rewrite !lookup_insert_ne.
Qed.

(** Saving only ever changes the file system. *)
Lemma save_uploaded_pdf_frame file w :
  let w' := snd (save_uploaded_pdf E file w) in
  sent w' = sent w /\ requests w' = requests w /\ now w' = now w.
Proof.
  unfold save_uploaded_pdf, bind, path_mkdir, path_write_bytes, ret. cbn zeta.
  repeat case_match; simplify_eq/=; done.
Qed.

(** X5. When saving fails, the upload panel raises the same error, sends no
    ingest event and does not sleep. *)
Theorem upload_panel_failed_save_sends_nothing file w e w' :
  save_uploaded_pdf E file w = (Raise e, w') ->
  upload_panel E (Some file) w = (Raise e, w') /\
  sent w' = sent w /\ now w' = now w.
Proof.
  intros Hsave. split.
  - unfold upload_panel, bind. by rewrite Hsave.
  - pose proof (save_uploaded_pdf_frame file w) as Hframe.
    cbn zeta in Hframe. rewrite Hsave in Hframe. cbn [snd] in Hframe. tauto.
Qed.

(** X3. Failures of the sink, in an existing working directory. If
    [uploads] is a regular file, [mkdir] raises [FileExistsError] and
    nothing changes. An empty file name makes the target the directory
    itself: [IsADirectoryError], after the directory has been created. A
    target that is a directory raises [IsADirectoryError] and nothing
    changes. A one-component name that holds a NUL raises [ValueError], and
    one of more than 255 bytes the [OSError] of a name too long, in both
    cases after the directory has been created and with nothing written. *)
Theorem save_uploaded_pdf_error_cases file w :
  node_at (files w) (cwd E) = Some Dir ->
  (forall content,
     files w !! (cwd E ++ ["uploads"]) = Some (File content) ->
     save_uploaded_pdf E file w = (Raise FileExistsError, w)) /\
  (file_name file = "" ->
   (files w !! (cwd E ++ ["uploads"]) = None \/
    files w !! (cwd E ++ ["uploads"]) = Some Dir) ->
   save_uploaded_pdf E file w
     = (Raise IsADirectoryError,
        set_files (<[cwd E ++ ["uploads"] := Dir]> (files w)) w)) /\
  (simple_name (file_name file) = true ->
   files w !! (cwd E ++ ["uploads"]) = Some Dir ->
   files w !! (cwd E ++ ["uploads"; file_name file]) = Some Dir ->
   save_uploaded_pdf E file w = (Raise IsADirectoryError, w)) /\
  (file_name file <> "" -> file_name file <> "." -> file_name file <> ".." ->
   has_slash (file_name file) = false ->
   (files w !! (cwd E ++ ["uploads"]) = None \/
    files w !! (cwd E ++ ["uploads"]) = Some Dir) ->
   (has_nul (file_name file) = true ->
    save_uploaded_pdf E file w
      = (Raise ValueError,
         set_files (<[cwd E ++ ["uploads"] := Dir]> (files w)) w)) /\
   (has_nul (file_name file) = false ->
    name_too_long (file_name file) = true ->
    save_uploaded_pdf E file w
      = (Raise (OSError ENAMETOOLONG),
         set_files (<[cwd E ++ ["uploads"] := Dir]> (files w)) w))).
Proof.
  intros Hcwd.
  set (uploads := cwd E ++ ["uploads"]) in *.
  assert (uploads <> []) as Hu by (unfold uploads; by destruct (cwd E)).
  split; [|split; [|split]].
  - intros content Hfile.
    unfold save_uploaded_pdf, bind. rewrite path_mkdir_uploads by done.
    fold uploads. by rewrite Hfile.
  - intros Hname Huploads.
    unfold save_uploaded_pdf, bind. rewrite path_mkdir_uploads_ok by done.
    fold uploads. rewrite Hname.
    change (path_join (path_of_string "uploads") "")
      with {| path_anchor := Rel; path_parts := ["uploads"] |}.
    rewrite (path_write_bytes_open E _ _ _ [] "uploads" (cwd E)); [|done|done| |done].
    + change (name_too_long "uploads") with false. cbn [files set_files].
      fold uploads. by rewrite node_at_insert_eq.
    + cbn [files set_files start_dir path_anchor]. apply walk_nil.
      by rewrite node_at_insert_ne by apply uploads_not_cwd.
  - intros Hname Hdir Htarget.
    pose proof (simple_name_spec _ Hname) as (Hne & Hdot & Hdotdot & Hslash).
    pose proof (simple_name_os _ Hname) as (_ & Hlong & _).
    unfold save_uploaded_pdf. rewrite uploads_file_path by done.
    unfold bind. rewrite path_mkdir_uploads by done. fold uploads. rewrite Hdir.
    rewrite (path_write_bytes_open E _ _ _ ["uploads"] (file_name file) uploads);
      [|done| | |done].
    + rewrite Hlong. cbn [files set_files].
      assert (uploads ++ [file_name file] = cwd E ++ ["uploads"; file_name file]) as ->.
      { unfold uploads. by rewrite <- app_assoc. }
      rewrite node_at_nonempty by (by destruct (cwd E)). rewrite Htarget.
      by destruct w.
    + change (path_str {| path_anchor := Rel;
                          path_parts := ["uploads"; file_name file] |})
        with ("uploads/" ++ file_name file)%string.
      apply path_refused_prefixed; [reflexivity | vm_compute; lia | done].
    + cbn [files set_files start_dir path_anchor].
      rewrite walk_cons by done.
      change (enter (cwd E) "uploads") with uploads.
      apply walk_nil. by rewrite node_at_nonempty.
  - intros Hne Hdot Hdotdot Hslash Huploads.
    assert (forall e,
              path_write_bytes E
                {| path_anchor := Rel; path_parts := ["uploads"; file_name file] |}
                (getbuffer file)
                (set_files (<[uploads := Dir]> (files w)) w)
              = (Raise e, set_files (<[uploads := Dir]> (files w)) w) ->
              save_uploaded_pdf E file w
              = (Raise e, set_files (<[uploads := Dir]> (files w)) w)) as Hsave.
    { intros e Hwrite. unfold save_uploaded_pdf, path_join.
      rewrite (path_of_string_component (file_name file)) by done.
      cbn [path_anchor path_parts].
      change (path_parts (path_of_string "uploads") ++ [file_name file])
        with ["uploads"; file_name file].
      change (path_anchor (path_of_string "uploads")) with Rel.
      unfold bind. rewrite path_mkdir_uploads_ok by done. fold uploads.
      by rewrite Hwrite. }
    split.
    + intros Hnul. apply Hsave. unfold path_write_bytes.
      change (path_str {| path_anchor := Rel;
                          path_parts := ["uploads"; file_name file] |})
        with ("uploads/" ++ file_name file)%string.
      unfold path_refused. by rewrite has_nul_app, Hnul, orb_true_r.
    + intros Hnul Hlong. apply Hsave.
      destruct (path_refused
                  (path_str {| path_anchor := Rel;
                               path_parts := ["uploads"; file_name file] |}))
        as [e|] eqn:Hrefused.
      * unfold path_write_bytes. rewrite Hrefused.
        change (path_str {| path_anchor := Rel;
                            path_parts := ["uploads"; file_name file] |})
          with ("uploads/" ++ file_name file)%string in Hrefused.
        unfold path_refused in Hrefused.
        rewrite has_nul_app, Hnul in Hrefused.
        change (has_nul "uploads/") with false in Hrefused. cbn [orb] in Hrefused.
        destruct (PATH_MAX <=? _)%nat; [|discriminate Hrefused].
        by injection Hrefused as <-.
      * rewrite (path_write_bytes_open E _ _ _ ["uploads"] (file_name file) uploads);
          [|done|done| |done].
        -- by rewrite Hlong.
        -- cbn [files set_files start_dir path_anchor].
           by apply walk_into_uploads.
Qed.

(** X4. The upload panel, for a [simple_name] (one component, no NUL, at
    most 255 bytes): it writes the file, then
    submits one ["rag/ingest_pdf"] event whose [pdf_path] is the absolute
    path of the file just written and whose [source_id] is the file name,
    then sleeps 0.3 s and yields the relative path. If the submission
    fails, the error is raised after the file has been written and the
    event logged; the file stays, and there is no sleep. *)
Theorem upload_panel_saves_then_dispatches file w :
  let target := cwd E ++ ["uploads"; file_name file] in
  let p := {| path_anchor := Rel; path_parts := ["uploads"; file_name file] |} in
  let ev := {| event_name := "rag/ingest_pdf";
               event_data :=
                 {[ "pdf_path" := PStr ("/" ++ String.concat "/" target)%string;
                    "source_id" := PStr (file_name file) ]} |} in
  let saved := set_files (<[target := File (getbuffer file)]>
                            (<[cwd E ++ ["uploads"] := Dir]> (files w))) w in
  simple_name (file_name file) = true ->
  node_at (files w) (cwd E) = Some Dir ->
  (files w !! (cwd E ++ ["uploads"]) = None \/
   files w !! (cwd E ++ ["uploads"]) = Some Dir) ->
  files w !! target <> Some Dir ->
  (forall ids,
     inngest E (length (sent w)) ev = inr ids ->
     upload_panel E (Some file) w
       = (Return (Some p), set_now (now w + (3 # 10)) (log_event ev saved))) /\
  (forall reason,
     inngest E (length (sent w)) ev = inl reason ->
     upload_panel E (Some file) w
       = (Raise (SendError reason), log_event ev saved)).
Proof.
  intros target p ev saved Hname Hcwd Huploads Htarget.
  pose proof (simple_name_spec _ Hname) as (Hne & Hdot & Hdotdot & Hslash).
  assert (path_resolve E p = {| path_anchor := Abs; path_parts := target |}) as Hres.
  { unfold path_resolve, start_dir, p, target.
    cbn [path_anchor path_parts fold_left]. unfold enter.
    cbn [String.eqb Ascii.eqb Bool.eqb].
    apply String.eqb_neq in Hdotdot. rewrite Hdotdot. by rewrite <- app_assoc. }
  unfold upload_panel, bind.
  rewrite save_uploaded_pdf_simple by done. fold target p saved.
  unfold send_rag_ingest_event, client_send, bind. rewrite Hres.
  change (path_str {| path_anchor := Abs; path_parts := target |})
    with ("/" ++ String.concat "/" target)%string.
  change (path_name p) with (file_name file). fold ev.
  change (sent saved) with (sent w).
  split.
  - intros ids ->. reflexivity.
  - intros reason ->. reflexivity.
Qed.

End UploadFacts.

(** ** The poller *)

Lemma verdict_malformed r last_status runs :
  run_list r = Some runs ->
  truthy runs = true ->
  first_run r = None ->
  verdict_of r last_status
    = VRaise (match runs with
              | PList _ | PStr _ => AttributeError
              | PDict _ => KeyError
              | _ => TypeError
              end).
Proof.
  unfold verdict_of, first_run, run_list. intros H1 H2 H3. verdict_cases.
Qed.

Lemma verdict_not_index_error r last_status :
  verdict_of r last_status <> VRaise IndexError.
Proof. unfold verdict_of. verdict_cases. Qed.

Section PollerFacts.

Variable E : environment.
Variable event_id : string.
Variables timeout_s poll_interval_s : Q.

Local Abbreviation after_get' := (after_get E event_id).
Local Abbreviation next_poll' := (next_poll E event_id poll_interval_s).
Local Abbreviation before_poll' := (before_poll E event_id poll_interval_s).
Local Abbreviation poll' := (poll E event_id poll_interval_s).
Local Abbreviation check_time' := (check_time E event_id poll_interval_s).
Local Abbreviation retries' := (retries E event_id timeout_s poll_interval_s).

Lemma wait_loop_out_of_fuel fuel : forall start last_status w w',
  wait_loop E fuel event_id timeout_s poll_interval_s start last_status w
    = (OutOfFuel, w') ->
  retries' start w fuel.
Proof.
  induction fuel as [|fuel IH]; intros start last_status w w' H; [apply retries_0|].
  rewrite wait_loop_step in H.
  destruct (verdict_of _ _) as [out|e|last'] eqn:Hv; [done|done|].
  destruct (Qgtb _ timeout_s) eqn:Ht; [done|].
  destruct (Qgtb 0 poll_interval_s) eqn:HI; [done|].
  apply verdict_retry in Hv as [Hp _].
  apply retries_S. split; [done|]. split; [by apply Qgtb_false|].
  split; [by apply Qgtb_false|]. by apply IH in H.
Qed.

Lemma before_poll_S w k : before_poll' w (S k) = next_poll' (before_poll' w k).
Proof. revert w. induction k as [|k IH]; intros w; [done|]. cbn [before_poll] in *. by rewrite IH. Qed.

(** X6. [fetch_runs] returns [runs] exactly when [requests.get] comes back
    with a response whose status is not in the 4xx or 5xx class and whose
    body is a JSON object, [runs] being the value of its ["data"] key, or
    [[]] when the key is missing. *)
Theorem fetch_runs_returns_the_run_list w runs :
  fst (fetch_runs E event_id w) = Return runs <->
  run_list (reply E event_id (length (requests w))) = Some runs.
Proof.
  unfold fetch_runs, requests_get, raise_for_status, resp_json, py_get, bind, ret,
    raise, run_list, reply, response_ok.
  destruct (server E (runs_url E event_id) (length (requests w))) as [[c body]|];
    cbn [status_code json_body fst snd]; [|split; discriminate].
  destruct ((400 <=? c) && (c <? 600))%Z; cbn [negb fst snd]; [split; discriminate|].
  destruct body as [[ | | | | | |d]|]; cbn [fst snd]; split; try discriminate.
  - by intros [= <-].
  - by intros [= <-].
Qed.

(** X7. The loop ends. With nonnegative latencies and a nonnegative poll
    interval, if [K] sleeps outlast the timeout then a call allowed more
    than [K] iterations always answers, after at most [K + 1] requests. *)
Theorem wait_for_run_output_answers_within K fuel w0 :
  (forall n, 0 <= latency E n)%Q ->
  (0 <= poll_interval_s)%Q ->
  (timeout_s < inject_Z (Z.of_nat K) * poll_interval_s)%Q ->
  (K < fuel)%nat ->
  fst (wait_for_run_output E fuel event_id timeout_s poll_interval_s w0) <> OutOfFuel /\
  (length (requests (snd (wait_for_run_output E fuel event_id timeout_s
                            poll_interval_s w0)))
   <= length (requests w0) + K + 1)%nat.
Proof.
  intros Hlat HI HK Hfuel.
  assert (forall k, retries' (now w0) w0 k -> (k <= K)%nat) as Hbound.
  { intros k [_ Hr]. destruct (decide (k <= K)%nat) as [|Hgt]; [done|].
    destruct (Hr K) as [_ Hin]; [lia|].
    pose proof (check_time_lower_bound E event_id poll_interval_s K w0 Hlat HI).
    lra. }
  rewrite wait_for_run_output_loop.
  destruct (wait_loop _ _ _ _ _ _ _ _) as [o w'] eqn:Hloop. cbn [fst snd].
  assert (o <> OutOfFuel) as Ho.
  { intros ->. apply wait_loop_out_of_fuel in Hloop. apply Hbound in Hloop. lia. }
  split; [done|].
  apply wait_loop_answer in Hloop as (k & Hk & Hr & -> & _); [|done].
  apply Hbound in Hr.
  rewrite requests_after_poll, length_app, length_replicate. lia.
Qed.

(** X8. A call that answers does so on its first request, or no later than
    one poll interval plus the latency of its last request after the
    timeout: the previous timeout check was still within [timeout_s]. *)
Theorem wait_for_run_output_overshoot fuel w0 o w' :
  wait_for_run_output E fuel event_id timeout_s poll_interval_s w0 = (o, w') ->
  o <> OutOfFuel ->
  length (requests w') = S (length (requests w0)) \/
  (now w' - now w0
     <= timeout_s + poll_interval_s + latency E (length (requests w') - 1))%Q.
Proof.
  rewrite wait_for_run_output_loop. intros Hloop Ho.
  apply wait_loop_answer in Hloop as (k & Hk & Hr & -> & _); [|done].
  destruct k as [|k]; [left; by rewrite requests_after_poll, length_app; cbn; lia|].
  right. destruct Hr as [_ Hr]. destruct (Hr k) as [_ Hin]; [lia|].
  rewrite requests_after_poll, length_app, length_replicate.
  replace (length (requests w0) + S (S k) - 1)%nat
    with (length (requests w0) + S k)%nat by lia.
  rewrite before_poll_S.
  unfold check_time in Hin.
  cbn [after_get next_poll set_now log_request now requests] in *.
  rewrite length_app, requests_before_poll, length_app, length_replicate.
  cbn [length].
  replace (length (requests w0) + k + 1)%nat
    with (length (requests w0) + S k)%nat by lia.
  rewrite requests_before_poll, length_app, length_replicate in Hin.
  lra.
Qed.


(** X10. A truthy ["data"] value that does not start with a JSON object
    aborts the wait at that poll: [AttributeError] for a list whose first
    entry is not an object and for a string, [KeyError] for an object,
    [TypeError] for a number or [True]. *)
Theorem malformed_run_list_aborts_wait fuel k w0 runs :
  (k < fuel)%nat ->
  retries' (now w0) w0 k ->
  run_list (poll' w0 k) = Some runs ->
  truthy runs = true ->
  first_run (poll' w0 k) = None ->
  wait_for_run_output E fuel event_id timeout_s poll_interval_s w0
    = (Raise (match runs with
              | PList _ | PStr _ => AttributeError
              | PDict _ => KeyError
              | _ => TypeError
              end),
       after_get' (before_poll' w0 k)).
Proof.
  intros Hk Hr Hruns Htruthy Hfirst. rewrite wait_for_run_output_loop.
  replace fuel with (k + S (fuel - S k))%nat by lia.
  rewrite wait_loop_reach by done.
  by rewrite (verdict_malformed _ _ runs).
Qed.

(** X11. [wait_for_run_output] never raises [IndexError]: [runs[0]] is
    only evaluated under [if runs], where a list or a string has a first
    element. *)
Theorem wait_for_run_output_no_index_error fuel w0 e w' :
  wait_for_run_output E fuel event_id timeout_s poll_interval_s w0 = (Raise e, w') ->
  e <> IndexError.
Proof.
  rewrite wait_for_run_output_loop. intros Hloop ->.
  apply wait_loop_answer in Hloop as (k & _ & _ & _ & Hv); [|done].
  destruct (verdict_of _ _) as [out|e'|last'] eqn:Hverdict.
  - discriminate Hv.
  - injection Hv as <-. by apply verdict_not_index_error in Hverdict.
  - by destruct Hv as [[_ ?]|(_ & _ & ?)].
Qed.

(** X12. Whatever its outcome, [wait_for_run_output] sends no event and
    touches no file, and every request it makes is for the runs of its own
    event. *)
Theorem wait_for_run_output_only_polls fuel w0 :
  let w' := snd (wait_for_run_output E fuel event_id timeout_s poll_interval_s w0) in
  sent w' = sent w0 /\ files w' = files w0 /\
  exists m, requests w' = requests w0 ++ replicate m (runs_url E event_id).
Proof. rewrite wait_for_run_output_loop. apply wait_loop_frame. Qed.

End PollerFacts.

(** ** The query form *)

Lemma py_lstrip_head s :
  py_lstrip s = "" \/ exists c t, py_lstrip s = String c t /\ py_isspace c = false.
Proof.
  induction s as [|c s IH]; [by left|]. cbn [py_lstrip].
  destruct (py_isspace c) eqn:Hc; [done|]. right. eauto.
Qed.

Lemma py_rstrip_idem s : py_rstrip (py_rstrip s) = py_rstrip s.
Proof.
  induction s as [|c s IH]; [done|]. cbn [py_rstrip].
  destruct (py_rstrip s) as [|c' t] eqn:Hr.
  - destruct (py_isspace c) eqn:Hc; [done|]. cbn [py_rstrip]. by rewrite Hc.
  - cbn [py_rstrip] in *. by rewrite IH.
Qed.

Lemma py_rstrip_head c t :
  py_isspace c = false -> exists t', py_rstrip (String c t) = String c t'.
Proof.
  intros Hc. cbn [py_rstrip]. destruct (py_rstrip t); [rewrite Hc|]; eauto.
Qed.

Lemma py_strip_head s :
  py_strip s = "" \/ exists c t, py_strip s = String c t /\ py_isspace c = false.
Proof.
  unfold py_strip. destruct (py_lstrip_head s) as [->|(c & t & -> & Hc)]; [by left|].
  right. destruct (py_rstrip_head c t Hc) as [t' ->]. eauto.
Qed.

Lemma py_strip_idem s : py_strip (py_strip s) = py_strip s.
Proof.
  destruct (py_strip_head s) as [->|(c & t & Hs & Hc)]; [done|].
  unfold py_strip at 1. rewrite Hs. cbn [py_lstrip]. rewrite Hc, <- Hs.
  unfold py_strip. apply py_rstrip_idem.
Qed.

Lemma py_rstrip_last s d :
  py_rstrip s <> "" ->
  py_isspace (List.last (list_ascii_of_string (py_rstrip s)) d) = false.
Proof.
  induction s as [|a s IH]; [done|]. cbn [py_rstrip].
  destruct (py_rstrip s) as [|b t] eqn:Hr.
  - destruct (py_isspace a) eqn:Ha; [done | by intros _].
  - intros _. change (List.last (list_ascii_of_string (String a (String b t))) d)
      with (List.last (list_ascii_of_string (String b t)) d).
    by apply IH.
Qed.

Lemma py_strip_blank s :
  forallb py_isspace (list_ascii_of_string s) = true -> py_strip s = "".
Proof.
  unfold py_strip. induction s as [|c s IH]; [done|].
  cbn [list_ascii_of_string forallb py_lstrip].
  intros [Hc Hs]%andb_true_iff. rewrite Hc. by apply IH.
Qed.

Lemma py_strip_not_blank s :
  forallb py_isspace (list_ascii_of_string s) = false -> py_strip s <> "".
Proof.
  unfold py_strip. induction s as [|c s IH]; [done|].
  cbn [list_ascii_of_string forallb py_lstrip].
  destruct (py_isspace c) eqn:Hc; cbn [andb]; [done|].
  intros _. destruct (py_rstrip_head c s Hc) as [t' ->]. done.
Qed.

Section FormFacts.

Variable E : environment.

Lemma wait_returns_output event_id timeout_s poll_interval_s fuel k w0 run :
  (k < fuel)%nat ->
  retries E event_id timeout_s poll_interval_s (now w0) w0 k ->
  first_run (poll E event_id poll_interval_s w0 k) = Some run ->
  is_success (status_of run) = true ->
  wait_for_run_output E fuel event_id timeout_s poll_interval_s w0
    = (Return (py_or (output_of run) (PDict ∅)),
       after_get E event_id (before_poll E event_id poll_interval_s w0 k)).
Proof.
  intros Hk Hr Hrun Hs. rewrite wait_for_run_output_loop.
  replace fuel with (k + S (fuel - S k))%nat by lia.
  rewrite wait_loop_reach by done.
  by rewrite (proj2 (verdict_return _ _ _)
                (ex_intro _ run (conj Hrun (conj Hs eq_refl)))).
Qed.

Lemma wait_raises_run_failed event_id timeout_s poll_interval_s fuel k w0 run :
  (k < fuel)%nat ->
  retries E event_id timeout_s poll_interval_s (now w0) w0 k ->
  first_run (poll E event_id poll_interval_s w0 k) = Some run ->
  is_failure (status_of run) = true ->
  wait_for_run_output E fuel event_id timeout_s poll_interval_s w0
    = (Raise (RuntimeError (status_of run)),
       after_get E event_id (before_poll E event_id poll_interval_s w0 k)).
Proof.
  intros Hk Hr Hrun Hs. rewrite wait_for_run_output_loop.
  replace fuel with (k + S (fuel - S k))%nat by lia.
  rewrite wait_loop_reach by done.
  by rewrite (proj2 (verdict_runtime_error _ _ _)
                (ex_intro _ run (conj Hrun (conj Hs eq_refl)))).
Qed.

(** X13. The query form, from submission to result. For a submitted,
    non-blank question whose event is acknowledged with [id], when the
    polling of [id] reaches (through pending polls) a first run in a
    terminal status: on success, a missing or falsy output yields the pair
    [("", [])], a mapping output yields its ["answer"] and ["sources"] with
    those defaults, and a truthy output that is not a mapping raises
    [AttributeError]; on failure the [RuntimeError] of the poller comes out
    of the form unchanged. *)
Theorem rag_query_form_shows_the_run fuel f w id rest k run :
  let q := py_strip (question f) in
  let ev := {| event_name := "rag/query_pdf_ai";
               event_data := {[ "question" := PStr q; "top_k" := PInt (top_k f) ]} |} in
  let w1 := log_event ev w in
  let w2 := after_get E id (before_poll E id default_poll_interval_s w1 k) in
  submitted f = true ->
  q <> "" ->
  inngest E (length (sent w)) ev = inr (id :: rest) ->
  (k < fuel)%nat ->
  retries E id default_timeout_s default_poll_interval_s (now w1) w1 k ->
  first_run (poll E id default_poll_interval_s w1 k) = Some run ->
  (is_success (status_of run) = true ->
   (truthy (output_of run) = false ->
    rag_query_form E fuel f w = (Return (Some (PStr "", PList [])), w2)) /\
   (forall d,
      run !! "output" = Some (PDict d) ->
      rag_query_form E fuel f w
        = (Return (Some (match d !! "answer" with Some v => v | None => PStr "" end,
                         match d !! "sources" with Some v => v | None => PList [] end)),
           w2)) /\
   (truthy (output_of run) = true ->
    (forall d, output_of run <> PDict d) ->
    rag_query_form E fuel f w = (Raise AttributeError, w2))) /\
  (is_failure (status_of run) = true ->
   rag_query_form E fuel f w = (Raise (RuntimeError (status_of run)), w2)).
Proof.
  intros q ev w1 w2 Hsub Hq Hack Hk Hr Hrun.
  apply truthy_str in Hq.
  assert (rag_query_form E fuel f w
            = bind (wait_for_run_output E fuel id default_timeout_s
                      default_poll_interval_s)
                   (fun output =>
                      answer <- py_get output "answer" (PStr "") ;;
                      sources <- py_get output "sources" (PList []) ;;
                      ret (Some (answer, sources)))%py w1) as Hform.
  { unfold rag_query_form. fold q. rewrite Hsub, Hq. cbn [andb].
    unfold bind at 1. unfold send_rag_query_event, client_send, bind at 1.
    fold ev. by rewrite Hack. }
  rewrite Hform. unfold bind, py_get, ret, raise.
  split.
  - intros Hs.
    rewrite (wait_returns_output id _ _ fuel k w1 run) by done. fold w2.
    split; [|split].
    + intros Hfalsy. unfold py_or. by rewrite Hfalsy.
    + intros d Hout. unfold output_of. by rewrite Hout, mapping_or_empty.
    + intros Htruthy Hnodict. unfold py_or. rewrite Htruthy.
      destruct (output_of run) as [ | | | | | |d]; try done. by destruct (Hnodict d).
  - intros Hf.
    by rewrite (wait_raises_run_failed id _ _ fuel k w1 run).
Qed.

(** X14. When the submission fails, or is acknowledged with no event id,
    the form raises ([SendError], [IndexError]) before any poll: the
    request log is unchanged. *)
Theorem rag_query_form_dispatch_failure fuel f w :
  let q := py_strip (question f) in
  let ev := {| event_name := "rag/query_pdf_ai";
               event_data := {[ "question" := PStr q; "top_k" := PInt (top_k f) ]} |} in
  submitted f = true ->
  q <> "" ->
  (forall reason,
     inngest E (length (sent w)) ev = inl reason ->
     rag_query_form E fuel f w = (Raise (SendError reason), log_event ev w)) /\
  (inngest E (length (sent w)) ev = inr [] ->
   rag_query_form E fuel f w = (Raise IndexError, log_event ev w)) /\
  requests (log_event ev w) = requests w.
Proof.
  intros q ev Hsub Hq. apply truthy_str in Hq.
  unfold rag_query_form. fold q. rewrite Hsub, Hq. cbn [andb].
  unfold send_rag_query_event, client_send, bind. fold ev.
  split; [|split; [|done]].
  - by intros reason ->.
  - by intros ->.
Qed.

(** X15. A question made of whitespace only (or empty) dispatches nothing,
    submitted or not: the form yields [None] and the world is unchanged. *)
Theorem blank_question_is_not_dispatched fuel f w :
  forallb py_isspace (list_ascii_of_string (question f)) = true ->
  rag_query_form E fuel f w = (Return None, w).
Proof.
  intros Hblank. unfold rag_query_form. rewrite (py_strip_blank _ Hblank).
  by rewrite andb_false_r.
Qed.

Lemma rag_query_form_sent fuel f w :
  submitted f = true ->
  py_strip (question f) <> "" ->
  sent (snd (rag_query_form E fuel f w))
    = sent w ++ [{| event_name := "rag/query_pdf_ai";
                    event_data := {[ "question" := PStr (py_strip (question f));
                                     "top_k" := PInt (top_k f) ]} |}].
Proof.
  intros Hsub Hq. apply truthy_str in Hq. unfold rag_query_form.
  rewrite Hsub, Hq. cbn [andb].
  unfold send_rag_query_event, client_send, wait_for_run_output, time_time,
    py_get, bind, ret, raise.
  set (ev := {| event_name := "rag/query_pdf_ai"; event_data := _ |}).
  destruct (inngest E (length (sent w)) ev) as [reason|[|id rest]]; cbn beta iota;
    [done|done|].
  pose proof (wait_loop_frame E id default_timeout_s default_poll_interval_s fuel
                (now (log_event ev w)) PNone (log_event ev w)) as Hframe.
  cbn zeta in Hframe. destruct Hframe as (Hs & _ & _).
  destruct (wait_loop _ _ _ _ _ _ _ _) as [[out| |] w1]; cbn [snd] in *;
    [|done|done].
  by destruct out.
Qed.

(** X16. A submitted question that is not blank is dispatched trimmed: the
    question in the event is not empty, neither starts nor ends with
    whitespace, and stripping it again changes nothing. *)
Theorem dispatched_question_is_trimmed fuel f w :
  submitted f = true ->
  forallb py_isspace (list_ascii_of_string (question f)) = false ->
  exists q c t,
    sent (snd (rag_query_form E fuel f w))
      = sent w ++ [{| event_name := "rag/query_pdf_ai";
                      event_data := {[ "question" := PStr q;
                                       "top_k" := PInt (top_k f) ]} |}] /\
    q = String c t /\
    py_isspace c = false /\
    py_isspace (List.last (list_ascii_of_string q) c) = false /\
    py_strip q = q.
Proof.
  intros Hsub Hnb. pose proof (py_strip_not_blank _ Hnb) as Hq.
  destruct (py_strip_head (question f)) as [Hempty|(c & t & Hs & Hc)]; [done|].
  exists (py_strip (question f)), c, t.
  split; [by apply rag_query_form_sent|]. split; [done|]. split; [done|].
  split; [|apply py_strip_idem].
  unfold py_strip in *. by apply py_rstrip_last.
Qed.

End FormFacts.

(** ** These properties on the scripted surroundings *)

Lemma save_again_last_write_wins_witness :
  exists p w1 w2,
    save_uploaded_pdf env_never_runs report_pdf fresh_world = (Return p, w1) /\
    save_uploaded_pdf env_never_runs report_pdf_v2 w1 = (Return p, w2) /\
    files w2 !! ["srv"; "app"; "uploads"; "doc.pdf"]
      = Some (File (getbuffer report_pdf_v2)).
Proof.
  destruct (save_again_last_write_wins env_never_runs report_pdf report_pdf_v2
              fresh_world) as (p & w1 & w2 & H1 & H2 & H3 & _).
  - by vm_compute.
  - reflexivity.
  - by vm_compute.
  - left. by vm_compute.
  - by vm_compute.
  - exists p, w1, w2. split; [exact H1|]. split; [exact H2 | exact H3].
Defined.

Lemma save_uploaded_pdf_follows_parent_segments_witness :
  exists w',
    save_uploaded_pdf env_never_runs climbing_upload fresh_world
      = (Return {| path_anchor := Rel; path_parts := ["uploads"; ".."; "notes.txt"] |},
         w') /\
    files w' !! ["srv"; "app"; "notes.txt"] = Some (File (getbuffer climbing_upload)).
Proof.
  destruct (save_uploaded_pdf_follows_parent_segments env_never_runs climbing_upload
              "notes.txt" fresh_world) as (w' & Hsave & Hfile & _).
  - reflexivity.
  - by vm_compute.
  - discriminate.
  - by vm_compute.
  - left. by vm_compute.
  - by vm_compute.
  - exists w'. split; [exact Hsave | exact Hfile].
Defined.

Lemma save_uploaded_pdf_error_cases_witness :
  save_uploaded_pdf env_never_runs report_pdf world_uploads_is_file
    = (Raise FileExistsError, world_uploads_is_file) /\
  fst (save_uploaded_pdf env_never_runs nul_upload fresh_world) = Raise ValueError /\
  fst (save_uploaded_pdf env_never_runs (long_upload 256 "a") fresh_world)
    = Raise (OSError ENAMETOOLONG).
Proof.
  split; [|split].
  - refine (proj1 (save_uploaded_pdf_error_cases env_never_runs report_pdf
                     world_uploads_is_file _) [] _); by vm_compute.
  - refine (f_equal fst
              (proj1 (proj2 (proj2 (proj2
                 (save_uploaded_pdf_error_cases env_never_runs nul_upload
                    fresh_world eq_refl))) _ _ _ _ _) _));
      [discriminate | discriminate | discriminate | reflexivity
      | left; by vm_compute | reflexivity].
  - refine (f_equal fst
              (proj2 (proj2 (proj2 (proj2
                 (save_uploaded_pdf_error_cases env_never_runs (long_upload 256 "a")
                    fresh_world eq_refl))) _ _ _ _ _) _ _));
      [discriminate | discriminate | discriminate | by vm_compute
      | left; by vm_compute | by vm_compute | by vm_compute].
Defined.

Lemma upload_panel_saves_then_dispatches_witness :
  exists w',
    upload_panel env_never_runs (Some report_pdf) fresh_world
      = (Return (Some {| path_anchor := Rel; path_parts := ["uploads"; "doc.pdf"] |}),
         w').
Proof.
  eexists.
  refine (proj1 (upload_panel_saves_then_dispatches env_never_runs report_pdf
                   fresh_world _ _ _ _) ["evt_1"] _).
  - by vm_compute.
  - by vm_compute.
  - left. by vm_compute.
  - by vm_compute.
  - reflexivity.
Defined.

Lemma upload_panel_failed_save_sends_nothing_witness :
  upload_panel env_never_runs (Some report_pdf) world_uploads_is_file
    = (Raise FileExistsError, world_uploads_is_file).
Proof.
  refine (proj1 (upload_panel_failed_save_sends_nothing env_never_runs report_pdf
                   world_uploads_is_file FileExistsError world_uploads_is_file _)).
  by vm_compute.
Defined.

Lemma wait_for_run_output_answers_within_witness :
  fst (wait_for_run_output env_never_runs 4 "evt_1" 1 (1 # 2) fresh_world)
    <> OutOfFuel /\
  (length (requests (snd (wait_for_run_output env_never_runs 4 "evt_1" 1 (1 # 2)
                            fresh_world)))
   <= 4)%nat.
Proof.
  refine (wait_for_run_output_answers_within env_never_runs "evt_1" 1 (1 # 2)
            3 4 fresh_world _ _ _ _).
  - intros n. by vm_compute.
  - by vm_compute.
  - by vm_compute.
  - lia.
Defined.

Lemma wait_for_run_output_overshoot_witness :
  length (requests (snd (wait_for_run_output env_never_runs 4 "evt_1" 1 (1 # 2)
                           fresh_world))) = 1%nat \/
  (now (snd (wait_for_run_output env_never_runs 4 "evt_1" 1 (1 # 2) fresh_world))
     - now fresh_world
   <= 1 + (1 # 2)
      + latency env_never_runs
          (length (requests (snd (wait_for_run_output env_never_runs 4 "evt_1" 1
                                    (1 # 2) fresh_world))) - 1))%Q.
Proof.
  refine (wait_for_run_output_overshoot env_never_runs "evt_1" 1 (1 # 2) 4
            fresh_world (Raise (TimeoutError PNone)) _ _ _).
  - by vm_compute.
  - discriminate.
Defined.


Lemma malformed_run_list_aborts_wait_witness :
  wait_for_run_output env_malformed 3 "evt_1" 120 (1 # 2) fresh_world
    = (Raise AttributeError, after_get env_malformed "evt_1" fresh_world).
Proof.
  refine (malformed_run_list_aborts_wait env_malformed "evt_1" 120 (1 # 2) 3 0
            fresh_world (PList [PStr "run-1"]) _ _ _ _ _).
  - lia.
  - split; [by left | intros j Hj; lia].
  - by vm_compute.
  - reflexivity.
  - by vm_compute.
Defined.

Lemma wait_for_run_output_no_index_error_witness :
  fst (wait_for_run_output env_unavailable 5 "evt_1" 120 (1 # 2) fresh_world)
    = Raise (HTTPError 503) /\
  HTTPError 503 <> IndexError.
Proof.
  split; [by vm_compute|].
  refine (wait_for_run_output_no_index_error env_unavailable "evt_1" 120 (1 # 2) 5
            fresh_world (HTTPError 503)
            (snd (wait_for_run_output env_unavailable 5 "evt_1" 120 (1 # 2)
                    fresh_world)) _).
  by vm_compute.
Defined.

Lemma rag_query_form_shows_the_run_witness :
  exists w',
    rag_query_form env_completes_third 5 padded_form fresh_world
      = (Return (Some (PStr "42", PList [PStr "doc.pdf"])), w').
Proof.
  eexists.
  refine (proj1 (proj2 (proj1
            (rag_query_form_shows_the_run env_completes_third 5 padded_form
               fresh_world "evt_1" [] 2
               {[ "status" := PStr "Completed"; "output" := answer_42 ]}
               _ _ _ _ _ _) _))
            {[ "answer" := PStr "42"; "sources" := PList [PStr "doc.pdf"] ]} _).
  - reflexivity.
  - by vm_compute.
  - reflexivity.
  - lia.
  - split; [right; by vm_compute|].
    intros [|[|j]] Hj; [split; by vm_compute | split; by vm_compute | lia].
  - by vm_compute.
  - by vm_compute.
  - by vm_compute.
Defined.

Lemma rag_query_form_dispatch_failure_witness :
  exists w',
    rag_query_form env_unreachable 5 padded_form fresh_world
      = (Raise (SendError "connection refused"), w') /\
    requests w' = [].
Proof.
  eexists. split.
  - refine (proj1 (rag_query_form_dispatch_failure env_unreachable 5 padded_form
                     fresh_world _ _) "connection refused" _).
    + reflexivity.
    + by vm_compute.
    + reflexivity.
  - reflexivity.
Defined.

Lemma blank_question_is_not_dispatched_witness :
  rag_query_form env_completes_third 5 blank_form fresh_world
    = (Return None, fresh_world).
Proof.
  apply (blank_question_is_not_dispatched env_completes_third 5 blank_form
           fresh_world).
  reflexivity.
Defined.

Lemma dispatched_question_is_trimmed_witness :
  exists q c t,
    sent (snd (rag_query_form env_completes_third 5 padded_form fresh_world))
      = [{| event_name := "rag/query_pdf_ai";
            event_data := {[ "question" := PStr q; "top_k" := PInt 5 ]} |}] /\
    q = String c t /\ py_isspace c = false.
Proof.
  destruct (dispatched_question_is_trimmed env_completes_third 5 padded_form
              fresh_world) as (q & c & t & Hsent & Hq & Hc & _).
  - reflexivity.
  - by vm_compute.
  - exists q, c, t. split; [exact Hsent|]. split; [exact Hq | exact Hc].
Defined.

Lemma fetch_runs_returns_the_run_list_witness :
  fst (fetch_runs env_completes_third "evt_1" fresh_world)
    = Return (PList [run_with "Running" PNone]).
Proof.
  apply (proj2 (fetch_runs_returns_the_run_list env_completes_third "evt_1"
                  fresh_world (PList [run_with "Running" PNone]))).
  by vm_compute.
Defined.

Example name_of_255_bytes_is_saved :
  fst (save_uploaded_pdf env_never_runs (long_upload 255 "a") fresh_world)
  = Return {| path_anchor := Rel; path_parts := ["uploads"; string_of 255 "a"] |}.
Proof. by vm_compute. Qed.

Example name_of_200_two_byte_characters_is_refused :
  fst (save_uploaded_pdf env_never_runs (long_upload 200 (ascii_of_nat 233))
         fresh_world)
  = Raise (OSError ENAMETOOLONG).
Proof. by vm_compute. Qed.

Example refused_name_leaves_the_directory_behind :
  files (snd (save_uploaded_pdf env_never_runs nul_upload fresh_world))
    !! ["srv"; "app"; "uploads"] = Some Dir /\
  sent (snd (upload_panel env_never_runs (Some nul_upload) fresh_world)) = [].
Proof. split; by vm_compute. Qed.
